(** * Billing consistency engine of the point-of-sale server

    A shallow embedding of the request handlers of [src/server.js] that
    write to the store: POST /api/customers, POST /api/bills,
    POST /api/payments, POST /api/refunds, DELETE /api/items/:id and
    DELETE /api/customers/:id, together with the Mongoose schemas they
    rely on.

    Modelling conventions.
    - Request bodies are read at the JSON types the handlers and the
      schemas name: an id is a string that casts to an ObjectId, an
      amount or a quantity is a number, a name is a string.  A field of a
      body is an [option], [None] standing for a field that is absent;
      for the fields the bill handler tests with [typeof x !== 'number']
      [None] also stands for a value of any other type.  Bodies that carry
      a value of another type where a handler only tests truthiness, or a
      path of the schema that the record of the request does not list, are
      outside the embedding.
    - In the first embedding a JavaScript [Number] is an exact rational
      ([Q]) and an [_id] is a [nat]: amounts are finite, additions are
      not rounded, and every id of a request is well formed.  Equations
      between amounts are stated with [==] (equality of rationals).
    - The second embedding, module [Ieee], translates POST /api/bills and
      POST /api/payments again with amounts as binary64 floats and with
      ids that may fail to cast.  It is used where the answer depends on
      Infinity, on NaN or on an id that is not an ObjectId.
    - The MongoDB collections are finite maps from [_id] to document
      (items, customers, bills) or append-only lists (payments,
      transactions, refunds).  Fresh [_id]s are drawn from a counter.
    - Every handler is a function from the store and the request body to
      the new store and the HTTP response; requests are handled one at a
      time, and the storage layer itself does not fail.
    - [authenticateToken] has accepted the caller. *)

From Stdlib Require Import QArith Qabs Lqa.
From Stdlib Require Floats.
From stdpp Require Import gmap strings list fin_maps.

Local Open Scope string_scope.
Local Open Scope list_scope.
Local Open Scope Q_scope.

(** ** Numbers *)

(** An [_id], and an id of a request that casts to one.  (Ids that do not
    cast are in [Ieee.IdArg].) *)
Definition ObjectId := nat.
Bind Scope nat_scope with ObjectId.

Definition Qlt_bool (a b : Q) : bool := negb (Qle_bool b a).

(** [!x] on a numeric field: falsy when absent or zero. *)
Definition truthy (x : option Q) : bool :=
  match x with
  | Some q => negb (Qeq_bool q 0)
  | None => false
  end.

(** ** Documents (the Mongoose schemas, lines 25-107) *)

Module Item.
Record t := mk {
  name : string;
  costPrice : option Q;
  sellingPrice : Q;
  stock : Q;
}.
Definition inc_stock (d : Q) (i : t) : t :=
  mk (name i) (costPrice i) (sellingPrice i) (stock i + d).
End Item.

Module Customer.
Record t := mk {
  name : string;
  phone : string;
  accountNumber : string;
  balance : Q;
}.
Definition set_balance (b : Q) (c : t) : t :=
  mk (name c) (phone c) (accountNumber c) b.
End Customer.

Module BillLine.
Record t := mk {
  itemId : ObjectId;
  quantity : Q;
  unitPrice : Q;
  customPrice : Q;
  unitCost : Q;
  total : Q;
  totalCost : Q;
}.
End BillLine.

Module Bill.
Record t := mk {
  customerId : ObjectId;
  items : list BillLine.t;
  subtotal : Q;
  markup : Q;
  discount : Q;
  grandTotal : Q;
  grandTotalCost : Q;
  paymentType : string;
  partialPayment : Q;
  status : string;
}.
Definition set_status (s : string) (b : t) : t :=
  mk (customerId b) (items b) (subtotal b) (markup b) (discount b)
     (grandTotal b) (grandTotalCost b) (paymentType b) (partialPayment b) s.
End Bill.

(** The [description] strings are built from [_id]s and amounts; they are
    kept symbolic. *)
Inductive Description :=
| DescBill (bill : ObjectId)
| DescPaymentForBill (bill : ObjectId)
| DescPaymentOf (amount : Q)
| DescRefundForBill (bill : ObjectId) (reason : string)
| DescText (s : string).

Module Payment.
Record t := mk {
  _id : ObjectId;
  customerId : ObjectId;
  amount : Q;
  paymentMethod : string;
  description : option Description;
}.
End Payment.

Inductive TransactionType := TBill | TPayment | TRefund.

Module Transaction.
Record t := mk {
  customerId : ObjectId;
  billId : option ObjectId;
  paymentId : option ObjectId;
  amount : Q;
  type : TransactionType;
  description : Description;
}.
End Transaction.

Module RefundLine.
Record t := mk {
  itemId : ObjectId;
  quantity : Q;
}.
End RefundLine.

Module Refund.
Record t := mk {
  billId : ObjectId;
  customerId : ObjectId;
  amount : Q;
  items : list RefundLine.t;
  reason : string;
}.
End Refund.

(** [status: { type: String, enum: ['completed', 'pending'], default: 'pending' }]
    (line 68). *)
Definition billSchema_status_enum : list string := ["completed"; "pending"].

(** ** The store *)

Record Store := mkStore {
  items : gmap ObjectId Item.t;
  customers : gmap ObjectId Customer.t;
  bills : gmap ObjectId Bill.t;
  payments : list Payment.t;
  transactions : list Transaction.t;
  refunds : list Refund.t;
  nextId : ObjectId;
}.

Definition empty_store : Store := mkStore ∅ ∅ ∅ [] [] [] 0%nat.

(** ** Requests and responses *)

Module BillReq.
Record line := mkLine {
  itemId : option ObjectId;
  quantity : option Q;
  unitPrice : option Q;
  customPrice : option Q;
  total : option Q;
}.
Record t := mk {
  customerId : option ObjectId;
  items : list line;
  subtotal : option Q;
  markup : option Q;
  discount : option Q;
  grandTotal : option Q;
  paymentType : string;
  partialPayment : option Q;
}.
End BillReq.

Module PaymentReq.
Record t := mk {
  customerId : option ObjectId;
  amount : option Q;
  paymentMethod : string;
  description : string;
}.
End PaymentReq.

Module RefundReq.
Record t := mk {
  billId : option ObjectId;
  customerId : option ObjectId;
  amount : option Q;
  items : list RefundLine.t;
  reason : string;
}.
End RefundReq.

Module CustomerReq.
Record t := mk {
  name : string;
  phone : string;
  accountNumber : string;
  balance : option Q;
}.
End CustomerReq.

(** The entries pushed on [errors] by the field checks of POST /api/bills. *)
Inductive FieldError :=
| CustomerIdRequired
| ItemsEmpty
| SubtotalNotPositive
| MarkupOutOfRange
| DiscountOutOfRange
| GrandTotalNotPositive
| PaymentTypeInvalid
| PartialPaymentNegative.

(** The [error] member of a failure response.  Interpolated values are
    kept as arguments. *)
Inductive ErrorMsg :=
| FieldErrors (errors : list FieldError)
| CustomerNotFound (customerId : ObjectId)
| ItemFieldsRequired (index : nat)
| ItemNotFound (index : nat) (itemId : ObjectId)
| InsufficientStock (index : nat) (name : string) (available : Q)
| CostPriceMissing (index : nat)
| SubtotalMismatch (provided calculated : Q)
| GrandTotalMismatch (provided calculated : Q)
| InvalidPaymentData
| InvalidRefundData
| BillNotFoundOrRefunded
| InvalidRefundQuantity (itemId : ObjectId)
| NameEtcRequired
| AccountNumberExists
| NotValidEnumValue (path value : string).

Inductive Body :=
| BillCreated (billId : ObjectId) (bill : Bill.t) (transactions : list Transaction.t)
| PaymentRecorded (payment : Payment.t) (transaction : Transaction.t)
| RefundProcessed (refund : Refund.t) (transaction : Transaction.t)
| CustomerCreated (customerId : ObjectId) (customer : Customer.t)
| Error (error : ErrorMsg).

Record Response := mkResponse {
  status : nat;
  body : Body;
}.

Definition json_error (code : nat) (e : ErrorMsg) : Response :=
  mkResponse code (Error e).

(** ** Store primitives *)

(** [Item.findByIdAndUpdate(id, { $inc: { stock: d } })]: no upsert, no
    validators; a missing document is left missing. *)
Definition inc_stock (id : ObjectId) (d : Q) (st : Store) : Store :=
  mkStore (alter (Item.inc_stock d) id (items st)) (customers st) (bills st)
          (payments st) (transactions st) (refunds st) (nextId st).

Definition save_customer (id : ObjectId) (c : Customer.t) (st : Store) : Store :=
  mkStore (items st) (<[id := c]> (customers st)) (bills st)
          (payments st) (transactions st) (refunds st) (nextId st).

Definition save_transaction (t : Transaction.t) (st : Store) : Store :=
  mkStore (items st) (customers st) (bills st)
          (payments st) (transactions st ++ [t]) (refunds st) (nextId st).

(** [new Payment({...}); payment.save()]: the document receives a fresh
    [_id]. *)
Definition save_payment (mkp : ObjectId → Payment.t) (st : Store) : Payment.t * Store :=
  let p := mkp (nextId st) in
  (p, mkStore (items st) (customers st) (bills st)
              (payments st ++ [p]) (transactions st) (refunds st) (S (nextId st))).

Definition save_refund (r : Refund.t) (st : Store) : Store :=
  mkStore (items st) (customers st) (bills st)
          (payments st) (transactions st) (refunds st ++ [r]) (nextId st).

Definition put_bill (id : ObjectId) (b : Bill.t) (st : Store) : Store :=
  mkStore (items st) (customers st) (<[id := b]> (bills st))
          (payments st) (transactions st) (refunds st) (nextId st).

Definition bump_id (st : Store) : Store :=
  mkStore (items st) (customers st) (bills st)
          (payments st) (transactions st) (refunds st) (S (nextId st)).

(** ** Field checks of POST /api/bills (lines 248-257) *)

Definition is_positive (x : option Q) : bool :=
  match x with Some q => Qlt_bool 0 q | None => false end.

Definition is_percent (x : option Q) : bool :=
  match x with Some q => Qle_bool 0 q && Qle_bool q 100 | None => false end.

Definition is_non_negative (x : option Q) : bool :=
  match x with Some q => Qle_bool 0 q | None => false end.

Definition is_payment_type (s : string) : bool :=
  bool_decide (s ∈ ["cash"; "credit"]).

Definition push_if (c : bool) (e : FieldError) : list FieldError :=
  if c then [e] else [].

Definition bill_field_errors (b : BillReq.t) : list FieldError :=
  push_if (negb (bool_decide (is_Some (BillReq.customerId b)))) CustomerIdRequired
  ++ push_if (bool_decide (BillReq.items b = [])) ItemsEmpty
  ++ push_if (negb (is_positive (BillReq.subtotal b))) SubtotalNotPositive
  ++ push_if (negb (is_percent (BillReq.markup b))) MarkupOutOfRange
  ++ push_if (negb (is_percent (BillReq.discount b))) DiscountOutOfRange
  ++ push_if (negb (is_positive (BillReq.grandTotal b))) GrandTotalNotPositive
  ++ push_if (negb (is_payment_type (BillReq.paymentType b))) PaymentTypeInvalid
  ++ push_if (negb (is_non_negative (BillReq.partialPayment b))) PartialPaymentNegative.

(** ** POST /api/bills: resolving the lines (lines 264-281) *)

(** The synchronous prefix of the [map] callback: every listed field must
    be truthy.  The four amounts are numbers or absent; a truthy value of
    another type, which the test of line 265 lets through as well, is not
    a body of the embedding. *)
Definition line_fields (l : BillReq.line) : option (ObjectId * Q * Q * Q) :=
  match BillReq.itemId l, BillReq.quantity l, BillReq.unitPrice l,
        BillReq.customPrice l, BillReq.total l with
  | Some itemId, Some quantity, Some unitPrice, Some customPrice, Some total =>
      if truthy (Some quantity) && truthy (Some unitPrice)
         && truthy (Some customPrice) && truthy (Some total)
      then Some (itemId, quantity, unitPrice, customPrice)
      else None
  | _, _, _, _, _ => None
  end.

(** The rest of the callback, after [await Item.findById]. *)
Definition resolve_line (st : Store) (index : nat) (f : ObjectId * Q * Q * Q)
  : ErrorMsg + BillLine.t :=
  let '(itemId, quantity, unitPrice, customPrice) := f in
  match items st !! itemId with
  | None => inl (ItemNotFound index itemId)
  | Some dbItem =>
      if Qlt_bool (Item.stock dbItem) quantity
      then inl (InsufficientStock index (Item.name dbItem) (Item.stock dbItem))
      else match Item.costPrice dbItem with
           | None => inl (CostPriceMissing index)
           | Some costPrice =>
               inr (BillLine.mk itemId quantity unitPrice customPrice costPrice
                                (quantity * customPrice) (quantity * costPrice))
           end
  end.

(** [Promise.all] rejects with the first rejection.  The field checks run
    while [map] is still iterating, so a line that fails them rejects
    before any lookup has answered; the lookups are then taken to answer
    in the order they were issued. *)
Fixpoint check_fields (index : nat) (ls : list BillReq.line)
  : ErrorMsg + list (ObjectId * Q * Q * Q) :=
  match ls with
  | [] => inr []
  | l :: rest =>
      match line_fields l with
      | None => inl (ItemFieldsRequired index)
      | Some f =>
          match check_fields (S index) rest with
          | inl e => inl e
          | inr fs => inr (f :: fs)
          end
      end
  end.

Fixpoint resolve_lines (st : Store) (index : nat) (fs : list (ObjectId * Q * Q * Q))
  : ErrorMsg + list BillLine.t :=
  match fs with
  | [] => inr []
  | f :: rest =>
      match resolve_line st index f with
      | inl e => inl e
      | inr line =>
          match resolve_lines st (S index) rest with
          | inl e => inl e
          | inr lines => inr (line :: lines)
          end
      end
  end.

Definition populate (st : Store) (ls : list BillReq.line) : ErrorMsg + list BillLine.t :=
  match check_fields 0 ls with
  | inl e => inl e
  | inr fs => resolve_lines st 0 fs
  end.

(** [populatedItems.reduce((sum, item) => sum + item.total, 0)] *)
Definition sum_total (ls : list BillLine.t) : Q :=
  fold_left (fun sum item => sum + BillLine.total item) ls 0.

Definition sum_totalCost (ls : list BillLine.t) : Q :=
  fold_left (fun sum item => sum + BillLine.totalCost item) ls 0.

(** [for (const item of populatedItems) Item.findByIdAndUpdate(item.itemId,
    { $inc: { stock: -item.quantity } })] *)
Definition decrement_stock (ls : list BillLine.t) (st : Store) : Store :=
  fold_left (fun s item => inc_stock (BillLine.itemId item) (- BillLine.quantity item) s) ls st.

Definition tolerance : Q := 0.01.

Section Handlers.

(** The handlers are parameterised by the [enum] of the [status] path
    of the Bill schema, the one validator of that schema that a handler
    can violate.  The server runs them at [billSchema_status_enum]. *)
Variable statusEnum : list string.

(** [bill.save()] validates the document first and throws a
    ValidationError when [status] is not one of the values of the enum;
    nothing is written then.  The other validators of the schema hold by
    construction for the documents the handlers build. *)
Definition Bill_validate (b : Bill.t) : option ErrorMsg :=
  if bool_decide (Bill.status b ∈ statusEnum) then None
  else Some (NotValidEnumValue "status" (Bill.status b)).

(** *** POST /api/bills (lines 243-355) *)
Definition bills_handler (st : Store) (b : BillReq.t) : Store * Response :=
  match bill_field_errors b with
  | (_ :: _) as errors => (st, json_error 400 (FieldErrors errors))
  | [] =>
    match BillReq.customerId b, BillReq.subtotal b, BillReq.markup b,
          BillReq.discount b, BillReq.grandTotal b, BillReq.partialPayment b with
    | Some customerId, Some subtotal, Some markup, Some discount,
      Some grandTotal, Some partialPayment =>
      match customers st !! customerId with
      | None => (st, json_error 404 (CustomerNotFound customerId))
      | Some customer =>
        match populate st (BillReq.items b) with
        | inl e => (st, json_error 400 e)   (* thrown; [catch], line 353 *)
        | inr populatedItems =>
          let calculatedSubtotal := sum_total populatedItems in
          if Qlt_bool tolerance (Qabs (calculatedSubtotal - subtotal))
          then (st, json_error 400 (SubtotalMismatch subtotal calculatedSubtotal))
          else
          let calculatedMarkedUpSubtotal := subtotal + (subtotal * markup / 100) in
          let calculatedGrandTotal :=
            calculatedMarkedUpSubtotal - (calculatedMarkedUpSubtotal * discount / 100) in
          if Qlt_bool tolerance (Qabs (calculatedGrandTotal - grandTotal))
          then (st, json_error 400 (GrandTotalMismatch grandTotal calculatedGrandTotal))
          else
          let bill :=
            Bill.mk customerId populatedItems subtotal markup discount grandTotal
                    (sum_totalCost populatedItems) (BillReq.paymentType b) partialPayment
                    (if Qle_bool grandTotal partialPayment then "completed" else "pending") in
          match Bill_validate bill with
          | Some e => (st, json_error 400 e)   (* thrown by [bill.save()] *)
          | None =>
            let billId := nextId st in
            let st := bump_id (put_bill billId bill st) in
            let st :=
              save_customer customerId
                (Customer.set_balance
                   (Customer.balance customer + (grandTotal - partialPayment)) customer) st in
            let st := decrement_stock populatedItems st in
            let billTransaction :=
              Transaction.mk customerId (Some billId) None grandTotal TBill
                             (DescBill billId) in
            let st := save_transaction billTransaction st in
            if Qlt_bool 0 partialPayment then
              let '(payment, st) :=
                save_payment (fun id => Payment.mk id customerId partialPayment
                                          (BillReq.paymentType b)
                                          (Some (DescPaymentForBill billId))) st in
              let paymentTransaction :=
                Transaction.mk customerId (Some billId) (Some (Payment._id payment))
                               (- partialPayment) TPayment (DescPaymentForBill billId) in
              let st := save_transaction paymentTransaction st in
              (st, mkResponse 201 (BillCreated billId bill [billTransaction; paymentTransaction]))
            else
              (st, mkResponse 201 (BillCreated billId bill [billTransaction]))
          end
        end
      end
    | _, _, _, _, _, _ =>
      (* not reached: a missing field has pushed an error above *)
      (st, json_error 400 (FieldErrors []))
    end
  end.

(** *** POST /api/refunds (lines 390-443) *)

(** The loop of lines 406-412: each requested line is checked against
    the bill and, when it passes, its stock increment is written before
    the next line is looked at. *)
Fixpoint refund_items (bill : Bill.t) (its : list RefundLine.t) (st : Store)
  : Store * option ErrorMsg :=
  match its with
  | [] => (st, None)
  | item :: rest =>
      match List.find (fun bi => bool_decide (BillLine.itemId bi = RefundLine.itemId item))
                      (Bill.items bill) with
      | None => (st, Some (InvalidRefundQuantity (RefundLine.itemId item)))
      | Some billItem =>
          if Qlt_bool (BillLine.quantity billItem) (RefundLine.quantity item)
          then (st, Some (InvalidRefundQuantity (RefundLine.itemId item)))
          else refund_items bill rest
                 (inc_stock (RefundLine.itemId item) (RefundLine.quantity item) st)
      end
  end.

Definition refunds_handler (st : Store) (r : RefundReq.t) : Store * Response :=
  match RefundReq.billId r, RefundReq.customerId r, RefundReq.amount r with
  | Some billId, Some customerId, Some amount =>
    if negb (truthy (Some amount)) || Qle_bool amount 0
       || bool_decide (RefundReq.items r = []) || bool_decide (RefundReq.reason r = "")
    then (st, json_error 400 InvalidRefundData)
    else
    match bills st !! billId with
    | None => (st, json_error 400 BillNotFoundOrRefunded)
    | Some bill =>
      if bool_decide (Bill.status bill = "refunded")
      then (st, json_error 400 BillNotFoundOrRefunded)
      else
      match customers st !! customerId with
      | None => (st, json_error 404 (CustomerNotFound customerId))
      | Some customer =>
        match refund_items bill (RefundReq.items r) st with
        | (st, Some e) => (st, json_error 400 e)
        | (st, None) =>
          let refund :=
            Refund.mk billId customerId amount (RefundReq.items r) (RefundReq.reason r) in
          let st := save_refund refund st in
          let bill := Bill.set_status "refunded" bill in
          match Bill_validate bill with
          | Some e => (st, json_error 400 e)   (* thrown by [bill.save()], line 424 *)
          | None =>
            let st := put_bill billId bill st in
            let st :=
              save_customer customerId
                (Customer.set_balance (Customer.balance customer - amount) customer) st in
            let transaction :=
              Transaction.mk customerId (Some billId) None (- amount) TRefund
                             (DescRefundForBill billId (RefundReq.reason r)) in
            let st := save_transaction transaction st in
            (st, mkResponse 201 (RefundProcessed refund transaction))
          end
        end
      end
    end
  | _, _, _ => (st, json_error 400 InvalidRefundData)
  end.

End Handlers.

(** The handlers as the server runs them. *)
Definition post_api_bills : Store → BillReq.t → Store * Response :=
  bills_handler billSchema_status_enum.

Definition post_api_refunds : Store → RefundReq.t → Store * Response :=
  refunds_handler billSchema_status_enum.

(** ** POST /api/payments (lines 357-387) *)
Definition post_api_payments (st : Store) (p : PaymentReq.t) : Store * Response :=
  match PaymentReq.customerId p, PaymentReq.amount p with
  | Some customerId, Some amount =>
    if negb (truthy (Some amount)) || Qle_bool amount 0
       || negb (is_payment_type (PaymentReq.paymentMethod p))
    then (st, json_error 400 InvalidPaymentData)
    else
    match customers st !! customerId with
    | None => (st, json_error 404 (CustomerNotFound customerId))
    | Some customer =>
      let description :=
        if bool_decide (PaymentReq.description p = "") then None
        else Some (DescText (PaymentReq.description p)) in
      let '(payment, st) :=
        save_payment (fun id => Payment.mk id customerId amount
                                  (PaymentReq.paymentMethod p) description) st in
      let st :=
        save_customer customerId
          (Customer.set_balance (Customer.balance customer - amount) customer) st in
      let transaction :=
        Transaction.mk customerId None (Some (Payment._id payment)) (- amount) TPayment
                       (default (DescPaymentOf amount) description) in
      let st := save_transaction transaction st in
      (st, mkResponse 201 (PaymentRecorded payment transaction))
    end
  | _, _ => (st, json_error 400 InvalidPaymentData)
  end.

(** ** POST /api/customers (lines 171-183) *)

(** [new Customer(req.body)] followed by [save()].  The body is read as
    the three required strings and an optional finite balance, the paths
    [CustomerReq.t] lists; [required] refuses an empty string, and the
    unique index on [accountNumber] refuses a second account with the
    same number (error code 11000). *)
Definition account_number_exists (acc : string) (st : Store) : bool :=
  existsb (fun kc => bool_decide (Customer.accountNumber kc.2 = acc))
          (map_to_list (customers st)).

Definition post_api_customers (st : Store) (c : CustomerReq.t) : Store * Response :=
  if bool_decide (CustomerReq.name c = "") || bool_decide (CustomerReq.phone c = "")
     || bool_decide (CustomerReq.accountNumber c = "")
  then (st, json_error 400 NameEtcRequired)
  else if account_number_exists (CustomerReq.accountNumber c) st
  then (st, json_error 400 AccountNumberExists)
  else
    let customer :=
      Customer.mk (CustomerReq.name c) (CustomerReq.phone c) (CustomerReq.accountNumber c)
                  (default 0 (CustomerReq.balance c)) in
    let customerId := nextId st in
    (bump_id (save_customer customerId customer st),
     mkResponse 201 (CustomerCreated customerId customer)).

(** ** DELETE /api/items/:id (lines 151-159) and
    DELETE /api/customers/:id (lines 205-216) *)

(** [res.json({ message })] with the default status 200, or
    [res.status(404).json({ error })]. *)
Inductive PlainBody :=
| Message (message : string)
| Failure (error : string).

Record PlainResponse := mkPlain {
  code : nat;
  said : PlainBody;
}.

(** [Item.findByIdAndDelete(req.params.id)] *)
Definition delete_api_items (st : Store) (id : ObjectId) : Store * PlainResponse :=
  match items st !! id with
  | None => (st, mkPlain 404 (Failure "Item not found"))
  | Some _ =>
      (mkStore (delete id (items st)) (customers st) (bills st)
               (payments st) (transactions st) (refunds st) (nextId st),
       mkPlain 200 (Message "Item deleted"))
  end.

(** [Customer.findByIdAndDelete], then [deleteMany({ customerId })] on
    Transaction, Bill and Payment; the Refund collection is not touched. *)
Definition delete_api_customers (st : Store) (id : ObjectId) : Store * PlainResponse :=
  match customers st !! id with
  | None => (st, mkPlain 404 (Failure "Customer not found"))
  | Some _ =>
      (mkStore (items st) (delete id (customers st))
               (filter (λ kb, Bill.customerId kb.2 ≠ id) (bills st))
               (filter (λ p, Payment.customerId p ≠ id) (payments st))
               (filter (λ t, Transaction.customerId t ≠ id) (transactions st))
               (refunds st) (nextId st),
       mkPlain 200 (Message "Customer deleted"))
  end.

(** ** Vocabulary of the statements *)

(** What a populated line owes to the request line and to the item it was
    resolved against. *)
Definition resolves (st : Store) (l : BillReq.line) (pl : BillLine.t) : Prop :=
  BillReq.itemId l = Some (BillLine.itemId pl)
  ∧ BillReq.quantity l = Some (BillLine.quantity pl)
  ∧ BillReq.unitPrice l = Some (BillLine.unitPrice pl)
  ∧ BillReq.customPrice l = Some (BillLine.customPrice pl)
  ∧ BillLine.total pl = BillLine.quantity pl * BillLine.customPrice pl
  ∧ ∃ dbItem,
      items st !! BillLine.itemId pl = Some dbItem
      ∧ BillLine.quantity pl <= Item.stock dbItem
      ∧ Item.costPrice dbItem = Some (BillLine.unitCost pl)
      ∧ BillLine.totalCost pl = BillLine.quantity pl * BillLine.unitCost pl.

(** [Σ quantity * customPrice] over the lines of the request. *)
Definition line_amount (l : BillReq.line) : Q :=
  default 0 (BillReq.quantity l) * default 0 (BillReq.customPrice l).

Definition spec_subtotal (ls : list BillReq.line) : Q :=
  foldr (λ l acc, line_amount l + acc) 0 ls.

(** [(subtotal * (1 + markup/100)) * (1 - discount/100)] *)
Definition spec_grandTotal (subtotal markup discount : Q) : Q :=
  (subtotal * (1 + markup / 100)) * (1 - discount / 100).

(** The ways a bill request can fail validation. *)
Inductive fails_validation (st : Store) (b : BillReq.t) : Prop :=
| fails_fields :
    bill_field_errors b ≠ [] → fails_validation st b
| fails_customer customerId :
    BillReq.customerId b = Some customerId →
    customers st !! customerId = None → fails_validation st b
| fails_line_fields l :
    l ∈ BillReq.items b → line_fields l = None → fails_validation st b
| fails_item l itemId :
    l ∈ BillReq.items b → BillReq.itemId l = Some itemId →
    items st !! itemId = None → fails_validation st b
| fails_stock l itemId quantity dbItem :
    l ∈ BillReq.items b → BillReq.itemId l = Some itemId →
    BillReq.quantity l = Some quantity → items st !! itemId = Some dbItem →
    Item.stock dbItem < quantity → fails_validation st b
| fails_costPrice l itemId dbItem :
    l ∈ BillReq.items b → BillReq.itemId l = Some itemId →
    items st !! itemId = Some dbItem → Item.costPrice dbItem = None →
    fails_validation st b
| fails_subtotal subtotal :
    BillReq.subtotal b = Some subtotal →
    tolerance < Qabs (spec_subtotal (BillReq.items b) - subtotal) →
    fails_validation st b
| fails_grandTotal subtotal markup discount grandTotal :
    BillReq.subtotal b = Some subtotal → BillReq.markup b = Some markup →
    BillReq.discount b = Some discount → BillReq.grandTotal b = Some grandTotal →
    tolerance < Qabs (spec_grandTotal subtotal markup discount - grandTotal) →
    fails_validation st b.

(** ** A shop used in the examples *)

Module Shop.
Definition A : ObjectId := 1.
Definition alice : ObjectId := 2.
Definition bob : ObjectId := 3.
Definition missing : ObjectId := 99.

(** Item A: costPrice 10, sellingPrice 20, stock 5; two customers with a
    zero balance. *)
Definition st0 : Store :=
  mkStore {[ A := Item.mk "A" (Some 10) 20 5 ]}
          {[ alice := Customer.mk "Alice" "555-0100" "ACC-1" 0;
             bob := Customer.mk "Bob" "555-0101" "ACC-2" 0 ]}
          ∅ [] [] [] 4.

Definition line (itemId : ObjectId) (quantity customPrice : Q) : BillReq.line :=
  BillReq.mkLine (Some itemId) (Some quantity) (Some 20) (Some customPrice)
                 (Some (quantity * customPrice)).

(** One line of 2 x A at 25; subtotal 50, markup 10, discount 0,
    grandTotal 55, paid in full in cash. *)
Definition bill_paid : BillReq.t :=
  BillReq.mk (Some alice) [line A 2 25] (Some 50) (Some 10) (Some 0) (Some 55)
             "cash" (Some 55).

(** The same bill on credit, nothing paid. *)
Definition bill_credit : BillReq.t :=
  BillReq.mk (Some alice) [line A 2 25] (Some 50) (Some 10) (Some 0) (Some 55)
             "credit" (Some 0).


(** The same bill with the grand total submitted as 60. *)
Definition bill_grandTotal_60 : BillReq.t :=
  BillReq.mk (Some alice) [line A 2 25] (Some 50) (Some 10) (Some 0) (Some 60)
             "cash" (Some 55).

(** The store after [bill_credit]: bill 4 is pending, stock of A is 3. *)
Definition st1 : Store := (post_api_bills st0 bill_credit).1.
Definition bill1 : ObjectId := 4.
End Shop.

(** The quantity a bill orders of one item, over all its lines. *)
Definition ordered_quantity (itemId : ObjectId) (ls : list BillLine.t) : Q :=
  foldr (λ l acc, if bool_decide (BillLine.itemId l = itemId)
                  then BillLine.quantity l + acc else acc) 0 ls.

Module Duplicate.
(** Two lines of 3 x A at 10 against a stock of 5; the totals agree. *)
Definition bill : BillReq.t :=
  BillReq.mk (Some Shop.alice) [Shop.line Shop.A 3 10; Shop.line Shop.A 3 10]
             (Some 60) (Some 0) (Some 0) (Some 60) "cash" (Some 60).
End Duplicate.

(** A requested refund line that the loop of lines 406-412 refuses: no
    line of the bill has its item, or the first such line has a smaller
    quantity. *)
Definition refused_line (bill : Bill.t) (item : RefundLine.t) : Prop :=
  match List.find (λ bi, bool_decide (BillLine.itemId bi = RefundLine.itemId item))
                  (Bill.items bill) with
  | None => True
  | Some billItem => BillLine.quantity billItem < RefundLine.quantity item
  end.

(** The schema with 'refunded' added to the enum of [status]. *)
Definition repaired_status_enum : list string := ["completed"; "pending"; "refunded"].

Module Refunds.
(** Refund of the whole of bill 4 (2 x A, grandTotal 55, owned by Alice). *)
Definition whole : RefundReq.t :=
  RefundReq.mk (Some Shop.bill1) (Some Shop.alice) (Some 55)
               [RefundLine.mk Shop.A 2] "damaged".

(** The same refund requested for Bob, who does not own the bill. *)
Definition for_bob : RefundReq.t :=
  RefundReq.mk (Some Shop.bill1) (Some Shop.bob) (Some 55)
               [RefundLine.mk Shop.A 2] "damaged".

(** The same refund with an amount far above the bill's grandTotal. *)
Definition excessive : RefundReq.t :=
  RefundReq.mk (Some Shop.bill1) (Some Shop.alice) (Some 1000000)
               [RefundLine.mk Shop.A 2] "damaged".

(** A valid line followed by a line of 3 x A against the bill line of
    2 x A. *)
Definition too_many : RefundReq.t :=
  RefundReq.mk (Some Shop.bill1) (Some Shop.alice) (Some 55)
               [RefundLine.mk Shop.A 1; RefundLine.mk Shop.A 3] "damaged".

(** A valid line followed by a line for an item that is not on the bill. *)
Definition not_on_bill : RefundReq.t :=
  RefundReq.mk (Some Shop.bill1) (Some Shop.alice) (Some 55)
               [RefundLine.mk Shop.A 1; RefundLine.mk Shop.missing 1] "damaged".
End Refunds.

Module Missing.
(** A well-formed bill for Alice whose only line names an item that is
    not in the catalogue. *)
Definition item : BillReq.t :=
  BillReq.mk (Some Shop.alice) [Shop.line Shop.missing 2 25]
             (Some 50) (Some 10) (Some 0) (Some 55) "cash" (Some 55).

(** The bill of the first scenario for a customer that does not exist. *)
Definition customer : BillReq.t :=
  BillReq.mk (Some Shop.missing) [Shop.line Shop.A 2 25]
             (Some 50) (Some 10) (Some 0) (Some 55) "cash" (Some 55).
End Missing.

(** ** The ledger *)

(** The sum of the amounts of the transactions of one customer. *)
Definition ledger_sum (customerId : ObjectId) (ts : list Transaction.t) : Q :=
  foldr (λ t acc, if bool_decide (Transaction.customerId t = customerId)
                  then Transaction.amount t + acc else acc) 0 ts.

(** The requests that open an account or move a balance. *)
Inductive Request :=
| NewCustomer (c : CustomerReq.t)
| NewBill (b : BillReq.t)
| NewPayment (p : PaymentReq.t)
| NewRefund (r : RefundReq.t).

Definition handle (st : Store) (rq : Request) : Store * Response :=
  match rq with
  | NewCustomer c => post_api_customers st c
  | NewBill b => post_api_bills st b
  | NewPayment p => post_api_payments st p
  | NewRefund r => post_api_refunds st r
  end.

(** The store after a sequence of requests. *)
Definition run (st : Store) (rqs : list Request) : Store :=
  fold_left (λ s rq, (handle s rq).1) rqs st.

Module Opening.
(** An account opened with a balance of 100, then a bill of 55 on credit
    and a payment of 20. *)
Definition carol : CustomerReq.t :=
  CustomerReq.mk "Carol" "555-0102" "ACC-3" (Some 100).
Definition carol_id : ObjectId := 4.
Definition bill : BillReq.t :=
  BillReq.mk (Some carol_id) [Shop.line Shop.A 2 25] (Some 50) (Some 10) (Some 0)
             (Some 55) "credit" (Some 0).
Definition payment : PaymentReq.t :=
  PaymentReq.mk (Some carol_id) (Some 20) "cash" "".
Definition history : list Request :=
  [NewCustomer carol; NewBill bill; NewPayment payment].
End Opening.

(** The replay property as the specification states it: for every
    customer, the sum of the ledger is the stored balance. *)
Definition ledger_replays_balance (st : Store) : Prop :=
  ∀ c customer, customers st !! c = Some customer →
    ledger_sum c (transactions st) == Customer.balance customer.

(** The quantity a request asks of one item, over all its lines. *)
Definition requested_quantity (itemId : ObjectId) (ls : list BillReq.line) : Q :=
  foldr (λ l acc, if bool_decide (BillReq.itemId l = Some itemId)
                  then default 0 (BillReq.quantity l) + acc else acc) 0 ls.

(** ** Vocabulary of the further properties *)

(** A numeric field that is present and not zero. *)
Definition nonzero (x : option Q) : Prop := ∃ q, x = Some q ∧ ¬ q == 0.

(** Two request lines that differ at most in the value of a truthy
    [total]. *)
Definition same_but_total (l l' : BillReq.line) : Prop :=
  BillReq.itemId l = BillReq.itemId l'
  ∧ BillReq.quantity l = BillReq.quantity l'
  ∧ BillReq.unitPrice l = BillReq.unitPrice l'
  ∧ BillReq.customPrice l = BillReq.customPrice l'
  ∧ nonzero (BillReq.total l) ∧ nonzero (BillReq.total l').

(** [Σ quantity * unitCost] over the lines of a stored bill. *)
Definition lines_cost (ls : list BillLine.t) : Q :=
  foldr (λ l acc, BillLine.quantity l * BillLine.unitCost l + acc) 0 ls.

Module Shop2.
(** [Shop.bill_paid] with another value in the [total] of its line. *)
Definition bill_paid_total_999 : BillReq.t :=
  BillReq.mk (Some Shop.alice)
             [BillReq.mkLine (Some Shop.A) (Some 2) (Some 20) (Some 25) (Some 999)]
             (Some 50) (Some 10) (Some 0) (Some 55) "cash" (Some 55).

(** The document and the ledger entries that [Shop.bill_paid] produces. *)
Definition stored_paid : Bill.t :=
  Bill.mk Shop.alice [BillLine.mk Shop.A 2 20 25 10 50 20]
          50 10 0 55 20 "cash" 55 "completed".
Definition created_paid : list Transaction.t :=
  [Transaction.mk Shop.alice (Some 4%nat) None 55 TBill (DescBill 4);
   Transaction.mk Shop.alice (Some 4%nat) (Some 5%nat) (-55) TPayment
                  (DescPaymentForBill 4)].
End Shop2.

Module Pay.
(** Alice pays 20 in cash; the same for a customer that does not exist;
    a payment of nothing. *)
Definition alice_20 : PaymentReq.t :=
  PaymentReq.mk (Some Shop.alice) (Some 20) "cash" "".
Definition nobody_20 : PaymentReq.t :=
  PaymentReq.mk (Some Shop.missing) (Some 20) "cash" "".
Definition alice_0 : PaymentReq.t :=
  PaymentReq.mk (Some Shop.alice) (Some 0) "cash" "".
End Pay.

(** Every customer [_id] is older than the next generated one. *)
Definition customers_fresh (st : Store) : Prop :=
  ∀ c, is_Some (customers st !! c) → (c < nextId st)%nat.

(** Every bill [_id] is older than the next generated one. *)
Definition bills_fresh (st : Store) : Prop :=
  ∀ k, is_Some (bills st !! k) → (k < nextId st)%nat.

Module Accounts.
End Accounts.

Module Shop3.
(** The pending bill 4 of [Shop.st1], and a sequence of requests that pays
    towards it, asks twice for its refund and bills Bob. *)
Definition stored_credit : Bill.t :=
  Bill.mk Shop.alice [BillLine.mk Shop.A 2 20 25 10 50 20]
          50 10 0 55 20 "credit" 0 "pending".
Definition bob_bill : BillReq.t :=
  BillReq.mk (Some Shop.bob) [Shop.line Shop.A 1 25] (Some 25) (Some 0) (Some 0)
             (Some 25) "cash" (Some 25).
Definition busy : list Request :=
  [NewPayment Pay.alice_20; NewRefund Refunds.whole; NewRefund Refunds.whole;
   NewBill bob_bill; NewPayment Pay.nobody_20; NewPayment Pay.alice_0].
End Shop3.

(** Every ledger entry refers to stored documents: its customer exists; a
    'bill' entry names a stored bill of that customer whose grandTotal is
    the entry's amount; a 'payment' entry names a stored Payment of that
    customer of the opposite amount; there is no 'refund' entry. *)
Definition entry_refers (st : Store) (t : Transaction.t) : Prop :=
  is_Some (customers st !! Transaction.customerId t)
  ∧ match Transaction.type t with
    | TBill =>
        ∃ billId bill,
          Transaction.billId t = Some billId
          ∧ bills st !! billId = Some bill
          ∧ Bill.customerId bill = Transaction.customerId t
          ∧ Bill.grandTotal bill = Transaction.amount t
    | TPayment =>
        ∃ payment,
          payment ∈ payments st
          ∧ Transaction.paymentId t = Some (Payment._id payment)
          ∧ Payment.customerId payment = Transaction.customerId t
          ∧ Transaction.amount t = - Payment.amount payment
    | TRefund => False
    end.

Definition ledger_refers (st : Store) : Prop :=
  Forall (entry_refers st) (transactions st).

(** The quantity a refund request asks back of one item, over all its
    lines. *)
Definition refund_quantity (itemId : ObjectId) (its : list RefundLine.t) : Q :=
  foldr (λ l acc, if bool_decide (RefundLine.itemId l = itemId)
                  then RefundLine.quantity l + acc else acc) 0 its.

(** A refund request that passes every check of lines 393-412. *)
Definition refund_passes (st : Store) (r : RefundReq.t) : Prop :=
  ∃ billId customerId amount bill,
    RefundReq.billId r = Some billId
    ∧ RefundReq.customerId r = Some customerId
    ∧ RefundReq.amount r = Some amount
    ∧ 0 < amount
    ∧ RefundReq.items r ≠ []
    ∧ RefundReq.reason r ≠ ""
    ∧ bills st !! billId = Some bill
    ∧ Bill.status bill ≠ "refunded"
    ∧ is_Some (customers st !! customerId)
    ∧ Forall (λ item, ¬ refused_line bill item) (RefundReq.items r).

(** A refund request that is turned away before the item loop has
    accepted a line. *)
Inductive refund_stops_early (st : Store) (r : RefundReq.t) : Prop :=
| stops_no_bill billId :
    RefundReq.billId r = Some billId → bills st !! billId = None →
    refund_stops_early st r
| stops_refunded billId bill :
    RefundReq.billId r = Some billId → bills st !! billId = Some bill →
    Bill.status bill = "refunded" → refund_stops_early st r
| stops_no_customer customerId :
    RefundReq.customerId r = Some customerId → customers st !! customerId = None →
    refund_stops_early st r
| stops_first_line billId bill item rest :
    RefundReq.billId r = Some billId → bills st !! billId = Some bill →
    RefundReq.items r = item :: rest → refused_line bill item →
    refund_stops_early st r
| stops_bad_data :
    RefundReq.billId r = None ∨ RefundReq.customerId r = None
    ∨ RefundReq.amount r = None ∨ RefundReq.items r = [] ∨ RefundReq.reason r = ""
    ∨ (∃ amount, RefundReq.amount r = Some amount ∧ amount <= 0) →
    refund_stops_early st r.

(** The same refund request sent [n] times. *)
Fixpoint refund_again (n : nat) (st : Store) (r : RefundReq.t) : Store :=
  match n with
  | O => st
  | S n => refund_again n (post_api_refunds st r).1 r
  end.

Module Refunds2.
(** A refund request for a bill that does not exist. *)
Definition no_bill : RefundReq.t :=
  RefundReq.mk (Some Shop.missing) (Some Shop.alice) (Some 55)
               [RefundLine.mk Shop.A 2] "damaged".
End Refunds2.

(** Requests together with the two deletions. *)
Inductive Op :=
| Serve (rq : Request)
| DeleteCustomer (id : ObjectId)
| DeleteItem (id : ObjectId).

Definition apply_op (st : Store) (op : Op) : Store :=
  match op with
  | Serve rq => (handle st rq).1
  | DeleteCustomer id => (delete_api_customers st id).1
  | DeleteItem id => (delete_api_items st id).1
  end.

Definition run_ops (st : Store) (ops : list Op) : Store :=
  fold_left apply_op ops st.

Module Churn.
(** Carol opens an account with 100, is billed 55 on credit and pays 20;
    Alice is billed and then deleted; item A is deleted. *)
Definition ops : list Op :=
  [Serve (NewCustomer Opening.carol); Serve (NewBill Opening.bill);
   Serve (NewBill Shop.bill_credit); Serve (NewPayment Opening.payment);
   DeleteCustomer Shop.alice; DeleteItem Shop.A].
End Churn.

#[local] Instance TransactionType_eq_dec : EqDecision TransactionType.
Proof. solve_decision. Defined.

(** The ledger entries of type 'bill' that name one bill. *)
Definition bill_entries (billId : ObjectId) (ts : list Transaction.t) : list Transaction.t :=
  filter (λ t, Transaction.type t = TBill ∧ Transaction.billId t = Some billId) ts.

(** No bill has two 'bill' entries in the ledger. *)
Definition at_most_one_entry_per_bill (st : Store) : Prop :=
  ∀ k, (length (bill_entries k (transactions st)) ≤ 1)%nat.

(** ** Requests at an arbitrary status enum *)

(** The four handlers with the enum of the Bill schema's [status] path
    left open; [handle] is [handle_with billSchema_status_enum]. *)
Definition handle_with (statusEnum : list string) (st : Store) (rq : Request)
  : Store * Response :=
  match rq with
  | NewCustomer c => post_api_customers st c
  | NewBill b => bills_handler statusEnum st b
  | NewPayment p => post_api_payments st p
  | NewRefund r => refunds_handler statusEnum st r
  end.



(** ** Replaying the ledger request by request *)

(** The ledger entries a request appends. *)
Definition entries_written (st : Store) (rq : Request) : list Transaction.t :=
  drop (length (transactions st)) (transactions (handle st rq).1).

(** The balance of customer [c] replayed along a sequence of requests:
    each request adds to the balance the amounts of the ledger entries it
    writes for [c].  The additions are made request by request, in the
    order of the requests, as the handlers make them. *)
Fixpoint replay (c : ObjectId) (balance : Q) (st : Store) (rqs : list Request) : Q :=
  match rqs with
  | [] => balance
  | rq :: rest =>
      replay c (balance + ledger_sum c (entries_written st rq)) (handle st rq).1 rest
  end.

(** The entries a sequence of requests appends, request after request. *)
Fixpoint written (st : Store) (rqs : list Request) : list Transaction.t :=
  match rqs with
  | [] => []
  | rq :: rest => entries_written st rq ++ written (handle st rq).1 rest
  end.

(** * The handlers of bills and payments over IEEE doubles

    The embedding above reads amounts as exact rationals, which leaves
    out two things the server's numbers do: a JSON number too large for a
    double (such as [1e999]) is parsed to [Infinity], on which the
    handlers compute [NaN]; and sums of doubles are rounded.  This module
    translates POST /api/bills and POST /api/payments a second time with
    every amount a binary64 float and with the comparisons and operators
    of the source taken as the IEEE ones.  It also keeps the ids of a
    request as they arrive: a string that Mongoose casts to an ObjectId,
    or one that it does not cast, for which [findById] throws a CastError.

    A Mongoose [Number] path refuses [NaN] (the cast fails) and accepts
    [Infinity]; a document with a refused path is rejected by [save()]
    with a ValidationError and nothing is written. *)

Module Ieee.
Import Stdlib.Floats.Floats.
#[local] Set Warnings "-inexact-float".
Local Open Scope float_scope.

(** An id of a request body. *)
Inductive IdArg :=
| Oid (id : ObjectId)
| NotAnId (raw : string).

(** [!x] on a numeric field: falsy when absent, zero or NaN. *)
Definition truthy (x : option float) : bool :=
  match x with
  | Some q => negb (q =? 0) && negb (is_nan q)
  | None => false
  end.

Module Item.
Record t := mk {
  name : string;
  costPrice : option float;
  sellingPrice : float;
  stock : float;
}.
Definition inc_stock (d : float) (i : t) : t :=
  mk (name i) (costPrice i) (sellingPrice i) (stock i + d).
End Item.

Module Customer.
Record t := mk {
  name : string;
  phone : string;
  accountNumber : string;
  balance : float;
}.
Definition set_balance (b : float) (c : t) : t :=
  mk (name c) (phone c) (accountNumber c) b.
End Customer.

Module BillLine.
Record t := mk {
  itemId : ObjectId;
  quantity : float;
  unitPrice : float;
  customPrice : float;
  unitCost : float;
  total : float;
  totalCost : float;
}.
End BillLine.

Module Bill.
Record t := mk {
  customerId : ObjectId;
  items : list BillLine.t;
  subtotal : float;
  markup : float;
  discount : float;
  grandTotal : float;
  grandTotalCost : float;
  paymentType : string;
  partialPayment : float;
  status : string;
}.
End Bill.

Inductive Description :=
| DescBill (bill : ObjectId)
| DescPaymentForBill (bill : ObjectId)
| DescPaymentOf (amount : float)
| DescText (s : string).

Module Payment.
Record t := mk {
  _id : ObjectId;
  customerId : ObjectId;
  amount : float;
  paymentMethod : string;
  description : option Description;
}.
End Payment.

Module Transaction.
Record t := mk {
  customerId : ObjectId;
  billId : option ObjectId;
  paymentId : option ObjectId;
  amount : float;
  type : TransactionType;
  description : Description;
}.
End Transaction.

(** The collections the two handlers read or write. *)
Record Store := mkStore {
  items : gmap ObjectId Item.t;
  customers : gmap ObjectId Customer.t;
  bills : gmap ObjectId Bill.t;
  payments : list Payment.t;
  transactions : list Transaction.t;
  nextId : ObjectId;
}.

Module BillReq.
Record line := mkLine {
  itemId : option IdArg;
  quantity : option float;
  unitPrice : option float;
  customPrice : option float;
  total : option float;
}.
Record t := mk {
  customerId : option IdArg;
  items : list line;
  subtotal : option float;
  markup : option float;
  discount : option float;
  grandTotal : option float;
  paymentType : string;
  partialPayment : option float;
}.
End BillReq.

Module PaymentReq.
Record t := mk {
  customerId : option IdArg;
  amount : option float;
  paymentMethod : string;
  description : string;
}.
End PaymentReq.

(** The [error] member of a failure response.  The message of a
    CastError or of a ValidationError is Mongoose's; the path or the
    model it names is kept. *)
Inductive ErrorMsg :=
| FieldErrors (errors : list FieldError)
| CustomerNotFound (customerId : ObjectId)
| CastToObjectIdFailed (raw : string)
| ItemFieldsRequired (index : nat)
| ItemNotFound (index : nat) (itemId : ObjectId)
| InsufficientStock (index : nat) (name : string) (available : float)
| CostPriceMissing (index : nat)
| SubtotalMismatch (provided calculated : float)
| GrandTotalMismatch (provided calculated : float)
| InvalidPaymentData
| ValidationFailed (model : string).

Inductive Body :=
| BillCreated (billId : ObjectId) (bill : Bill.t) (transactions : list Transaction.t)
| PaymentRecorded (payment : Payment.t) (transaction : Transaction.t)
| Error (error : ErrorMsg).

Record Response := mkResponse {
  status : nat;
  body : Body;
}.

Definition json_error (code : nat) (e : ErrorMsg) : Response :=
  mkResponse code (Error e).

(** *** Store primitives *)

Definition inc_stock (id : ObjectId) (d : float) (st : Store) : Store :=
  mkStore (alter (Item.inc_stock d) id (items st)) (customers st) (bills st)
          (payments st) (transactions st) (nextId st).

Definition save_customer (id : ObjectId) (c : Customer.t) (st : Store) : Store :=
  mkStore (items st) (<[id := c]> (customers st)) (bills st)
          (payments st) (transactions st) (nextId st).

Definition save_transaction (t : Transaction.t) (st : Store) : Store :=
  mkStore (items st) (customers st) (bills st)
          (payments st) (transactions st ++ [t]) (nextId st).

Definition save_payment (mkp : ObjectId → Payment.t) (st : Store) : Payment.t * Store :=
  let p := mkp (nextId st) in
  (p, mkStore (items st) (customers st) (bills st)
              (payments st ++ [p]) (transactions st) (S (nextId st))).

Definition save_bill (b : Bill.t) (st : Store) : ObjectId * Store :=
  (nextId st,
   mkStore (items st) (customers st) (<[nextId st := b]> (bills st))
           (payments st) (transactions st) (S (nextId st))).

(** *** Field checks of POST /api/bills (lines 248-257) *)

(** [typeof x !== 'number' || x <= 0] pushes an error. *)
Definition is_positive (x : option float) : bool :=
  match x with Some q => negb (q <=? 0) | None => false end.

(** [typeof x !== 'number' || x < 0 || x > 100] pushes an error. *)
Definition is_percent (x : option float) : bool :=
  match x with Some q => negb ((q <? 0) || (100 <? q)) | None => false end.

(** [typeof x !== 'number' || x < 0] pushes an error. *)
Definition is_non_negative (x : option float) : bool :=
  match x with Some q => negb (q <? 0) | None => false end.

Definition bill_field_errors (b : BillReq.t) : list FieldError :=
  push_if (negb (bool_decide (is_Some (BillReq.customerId b)))) CustomerIdRequired
  ++ push_if (bool_decide (BillReq.items b = [])) ItemsEmpty
  ++ push_if (negb (is_positive (BillReq.subtotal b))) SubtotalNotPositive
  ++ push_if (negb (is_percent (BillReq.markup b))) MarkupOutOfRange
  ++ push_if (negb (is_percent (BillReq.discount b))) DiscountOutOfRange
  ++ push_if (negb (is_positive (BillReq.grandTotal b))) GrandTotalNotPositive
  ++ push_if (negb (is_payment_type (BillReq.paymentType b))) PaymentTypeInvalid
  ++ push_if (negb (is_non_negative (BillReq.partialPayment b))) PartialPaymentNegative.

(** *** Resolving the lines (lines 264-281) *)

Definition line_fields (l : BillReq.line) : option (IdArg * float * float * float) :=
  match BillReq.itemId l, BillReq.quantity l, BillReq.unitPrice l,
        BillReq.customPrice l, BillReq.total l with
  | Some itemId, Some quantity, Some unitPrice, Some customPrice, Some total =>
      if truthy (Some quantity) && truthy (Some unitPrice)
         && truthy (Some customPrice) && truthy (Some total)
      then Some (itemId, quantity, unitPrice, customPrice)
      else None
  | _, _, _, _, _ => None
  end.

(** [!dbItem.costPrice && dbItem.costPrice !== 0] throws for a missing
    cost price and for NaN. *)
Definition resolve_line (st : Store) (index : nat) (f : IdArg * float * float * float)
  : ErrorMsg + BillLine.t :=
  let '(itemId, quantity, unitPrice, customPrice) := f in
  match itemId with
  | NotAnId raw => inl (CastToObjectIdFailed raw)
  | Oid itemId =>
    match items st !! itemId with
    | None => inl (ItemNotFound index itemId)
    | Some dbItem =>
        if Item.stock dbItem <? quantity
        then inl (InsufficientStock index (Item.name dbItem) (Item.stock dbItem))
        else match Item.costPrice dbItem with
             | None => inl (CostPriceMissing index)
             | Some costPrice =>
                 if is_nan costPrice then inl (CostPriceMissing index)
                 else inr (BillLine.mk itemId quantity unitPrice customPrice costPrice
                                       (quantity * customPrice) (quantity * costPrice))
             end
    end
  end.

(** As in the first embedding, the field checks of all lines come before
    the lookups.  Which of several rejections [Promise.all] reports
    depends on the order in which the lookups answer; every one of them
    is answered with 400. *)
Fixpoint check_fields (index : nat) (ls : list BillReq.line)
  : ErrorMsg + list (IdArg * float * float * float) :=
  match ls with
  | [] => inr []
  | l :: rest =>
      match line_fields l with
      | None => inl (ItemFieldsRequired index)
      | Some f =>
          match check_fields (S index) rest with
          | inl e => inl e
          | inr fs => inr (f :: fs)
          end
      end
  end.

Fixpoint resolve_lines (st : Store) (index : nat) (fs : list (IdArg * float * float * float))
  : ErrorMsg + list BillLine.t :=
  match fs with
  | [] => inr []
  | f :: rest =>
      match resolve_line st index f with
      | inl e => inl e
      | inr line =>
          match resolve_lines st (S index) rest with
          | inl e => inl e
          | inr lines => inr (line :: lines)
          end
      end
  end.

Definition populate (st : Store) (ls : list BillReq.line) : ErrorMsg + list BillLine.t :=
  match check_fields 0 ls with
  | inl e => inl e
  | inr fs => resolve_lines st 0 fs
  end.

Definition sum_total (ls : list BillLine.t) : float :=
  fold_left (fun sum item => sum + BillLine.total item) ls 0.

Definition sum_totalCost (ls : list BillLine.t) : float :=
  fold_left (fun sum item => sum + BillLine.totalCost item) ls 0.

Definition decrement_stock (ls : list BillLine.t) (st : Store) : Store :=
  fold_left (fun s item => inc_stock (BillLine.itemId item) (- BillLine.quantity item) s) ls st.

Definition tolerance : float := 0.01.

(** [Math.abs(a - b) > 0.01]; false when [a - b] is NaN. *)
Definition mismatch (a b : float) : bool := tolerance <? abs (a - b).

(** [subtotal + (subtotal * markup / 100)], then the discount taken off
    (lines 288-289). *)
Definition calculatedGrandTotal (subtotal markup discount : float) : float :=
  let calculatedMarkedUpSubtotal := subtotal + (subtotal * markup / 100) in
  calculatedMarkedUpSubtotal - (calculatedMarkedUpSubtotal * discount / 100).

(** *** Validation by [save()] *)

Definition line_numbers (l : BillLine.t) : list float :=
  [BillLine.quantity l; BillLine.unitPrice l; BillLine.customPrice l;
   BillLine.unitCost l; BillLine.total l; BillLine.totalCost l].

Definition Bill_numbers (b : Bill.t) : list float :=
  [Bill.subtotal b; Bill.markup b; Bill.discount b; Bill.grandTotal b;
   Bill.grandTotalCost b; Bill.partialPayment b]
  ++ flat_map line_numbers (Bill.items b).

(** The Bill documents the handler builds have their paymentType and
    status in the enums; what [save()] can refuse is a NaN. *)
Definition Bill_valid (b : Bill.t) : bool :=
  forallb (λ x, negb (is_nan x)) (Bill_numbers b).

Definition Customer_valid (c : Customer.t) : bool :=
  negb (is_nan (Customer.balance c)).

(** *** POST /api/bills (lines 243-355) *)
Definition post_api_bills (st : Store) (b : BillReq.t) : Store * Response :=
  match bill_field_errors b with
  | (_ :: _) as errors => (st, json_error 400 (FieldErrors errors))
  | [] =>
    match BillReq.customerId b, BillReq.subtotal b, BillReq.markup b,
          BillReq.discount b, BillReq.grandTotal b, BillReq.partialPayment b with
    | Some customerArg, Some subtotal, Some markup, Some discount,
      Some grandTotal, Some partialPayment =>
      match customerArg with
      | NotAnId raw => (st, json_error 400 (CastToObjectIdFailed raw))   (* thrown by [findById] *)
      | Oid customerId =>
      match customers st !! customerId with
      | None => (st, json_error 404 (CustomerNotFound customerId))
      | Some customer =>
        match populate st (BillReq.items b) with
        | inl e => (st, json_error 400 e)   (* thrown; [catch], line 353 *)
        | inr populatedItems =>
          let calculatedSubtotal := sum_total populatedItems in
          if mismatch calculatedSubtotal subtotal
          then (st, json_error 400 (SubtotalMismatch subtotal calculatedSubtotal))
          else
          let calculated := calculatedGrandTotal subtotal markup discount in
          if mismatch calculated grandTotal
          then (st, json_error 400 (GrandTotalMismatch grandTotal calculated))
          else
          let bill :=
            Bill.mk customerId populatedItems subtotal markup discount grandTotal
                    (sum_totalCost populatedItems) (BillReq.paymentType b) partialPayment
                    (if grandTotal <=? partialPayment then "completed" else "pending") in
          if negb (Bill_valid bill)
          then (st, json_error 400 (ValidationFailed "Bill"))   (* thrown by [bill.save()] *)
          else
          let '(billId, st) := save_bill bill st in
          let customer :=
            Customer.set_balance
              (Customer.balance customer + (grandTotal - partialPayment)) customer in
          if negb (Customer_valid customer)
          then (st, json_error 400 (ValidationFailed "Customer"))   (* thrown by [customer.save()] *)
          else
          let st := save_customer customerId customer st in
          let st := decrement_stock populatedItems st in
          let billTransaction :=
            Transaction.mk customerId (Some billId) None grandTotal TBill
                           (DescBill billId) in
          let st := save_transaction billTransaction st in
          if 0 <? partialPayment then
            let '(payment, st) :=
              save_payment (fun id => Payment.mk id customerId partialPayment
                                        (BillReq.paymentType b)
                                        (Some (DescPaymentForBill billId))) st in
            let paymentTransaction :=
              Transaction.mk customerId (Some billId) (Some (Payment._id payment))
                             (- partialPayment) TPayment (DescPaymentForBill billId) in
            let st := save_transaction paymentTransaction st in
            (st, mkResponse 201 (BillCreated billId bill [billTransaction; paymentTransaction]))
          else
            (st, mkResponse 201 (BillCreated billId bill [billTransaction]))
        end
      end
      end
    | _, _, _, _, _, _ =>
      (* not reached: a missing field has pushed an error above *)
      (st, json_error 400 (FieldErrors []))
    end
  end.

(** *** POST /api/payments (lines 357-387) *)

(** [!customerId || !amount || amount <= 0 ||
    !['cash', 'credit'].includes(paymentMethod)] is false. *)
Definition payment_data_ok (p : PaymentReq.t) : bool :=
  bool_decide (is_Some (PaymentReq.customerId p))
  && truthy (PaymentReq.amount p)
  && match PaymentReq.amount p with Some a => negb (a <=? 0) | None => false end
  && is_payment_type (PaymentReq.paymentMethod p).

Definition post_api_payments (st : Store) (p : PaymentReq.t) : Store * Response :=
  match PaymentReq.customerId p, PaymentReq.amount p with
  | Some customerArg, Some amount =>
    if negb (payment_data_ok p)
    then (st, json_error 400 InvalidPaymentData)
    else
    match customerArg with
    | NotAnId raw => (st, json_error 400 (CastToObjectIdFailed raw))   (* thrown by [findById] *)
    | Oid customerId =>
    match customers st !! customerId with
    | None => (st, json_error 404 (CustomerNotFound customerId))
    | Some customer =>
      let description :=
        if bool_decide (PaymentReq.description p = "") then None
        else Some (DescText (PaymentReq.description p)) in
      let '(payment, st) :=
        save_payment (fun id => Payment.mk id customerId amount
                                  (PaymentReq.paymentMethod p) description) st in
      let customer :=
        Customer.set_balance (Customer.balance customer - amount) customer in
      if negb (Customer_valid customer)
      then (st, json_error 400 (ValidationFailed "Customer"))   (* thrown by [customer.save()] *)
      else
      let st := save_customer customerId customer st in
      let transaction :=
        Transaction.mk customerId None (Some (Payment._id payment)) (- amount) TPayment
                       (default (DescPaymentOf amount) description) in
      let st := save_transaction transaction st in
      (st, mkResponse 201 (PaymentRecorded payment transaction))
    end
    end
  | _, _ => (st, json_error 400 InvalidPaymentData)
  end.

(** *** Vocabulary of the statements *)

(** [Σ quantity * customPrice] over the lines of the request. *)
Definition line_amount (l : BillReq.line) : float :=
  default 0 (BillReq.quantity l) * default 0 (BillReq.customPrice l).

Definition spec_subtotal (ls : list BillReq.line) : float :=
  fold_left (λ acc l, acc + line_amount l) ls 0.

(** [(subtotal * (1 + markup/100)) * (1 - discount/100)] *)
Definition spec_grandTotal (subtotal markup discount : float) : float :=
  (subtotal * (1 + markup / 100)) * (1 - discount / 100).

(** [a] is within 0.01 of [b]. *)
Definition within_tolerance (a b : float) : bool := abs (a - b) <=? tolerance.

(** The sum of the amounts of the transactions of one customer. *)
Definition ledger_sum (customerId : ObjectId) (ts : list Transaction.t) : float :=
  foldr (λ t acc, if bool_decide (Transaction.customerId t = customerId)
                  then Transaction.amount t + acc else acc) 0 ts.

(** *** A shop used in the examples *)

Module Shop.
(** Item A: costPrice 10, sellingPrice 20, stock 5; Alice owes nothing. *)
Definition st0 : Store :=
  mkStore {[ Shop.A := Item.mk "A" (Some 10) 20 5 ]}
          {[ Shop.alice := Customer.mk "Alice" "555-0100" "ACC-1" 0 ]}
          ∅ [] [] 4.

(** The body
    [{ customerId: alice, items: [{ itemId: A, quantity: 1, unitPrice: 20,
    customPrice: 1e999, total: 1e999 }], subtotal: 1e999, markup: 10,
    discount: 0, grandTotal: 0.01, paymentType: 'credit',
    partialPayment: 0 }] as [JSON.parse] delivers it: [1e999] is
    Infinity. *)
Definition overflow : BillReq.t :=
  BillReq.mk (Some (Oid Shop.alice))
             [BillReq.mkLine (Some (Oid Shop.A)) (Some 1) (Some 20)
                             (Some infinity) (Some infinity)]
             (Some infinity) (Some 10) (Some 0) (Some 0.01) "credit" (Some 0).

(** The same lines with [grandTotal: 1e999, paymentType: 'cash',
    partialPayment: 1e999]: the balance to store is
    0 + (Infinity - Infinity). *)
Definition overflow_paid : BillReq.t :=
  BillReq.mk (Some (Oid Shop.alice))
             [BillReq.mkLine (Some (Oid Shop.A)) (Some 1) (Some 20)
                             (Some infinity) (Some infinity)]
             (Some infinity) (Some 10) (Some 0) (Some infinity) "cash" (Some infinity).

(** A payment of 1e999 by a customer whose balance is Infinity. *)
Definition st_inf : Store :=
  mkStore ∅ {[ Shop.alice := Customer.mk "Alice" "555-0100" "ACC-1" infinity ]}
          ∅ [] [] 4.
Definition payment_inf : PaymentReq.t :=
  PaymentReq.mk (Some (Oid Shop.alice)) (Some infinity) "cash" "".

(** Alice owes 0.1 and buys on credit, first for 0.2 and then for 0.3. *)
Definition st_tenth : Store :=
  mkStore {[ Shop.A := Item.mk "A" (Some 10) 20 5 ]}
          {[ Shop.alice := Customer.mk "Alice" "555-0100" "ACC-1" 0.1 ]}
          ∅ [] [] 4.
Definition credit (amount : float) : BillReq.t :=
  BillReq.mk (Some (Oid Shop.alice))
             [BillReq.mkLine (Some (Oid Shop.A)) (Some 1) (Some 20)
                             (Some amount) (Some amount)]
             (Some amount) (Some 0) (Some 0) (Some amount) "credit" (Some 0).
End Shop.

End Ieee.

(** * Properties *)

(** ** Comparisons on rationals *)

Lemma Qlt_bool_true a b : Qlt_bool a b = true ↔ a < b.
Proof.
  unfold Qlt_bool. rewrite negb_true_iff. split.
  - intros H. apply Qnot_le_lt. intros Hle. apply Qle_bool_iff in Hle. congruence.
  - intros H. destruct (Qle_bool b a) eqn:E; [|done].
    apply Qle_bool_iff in E. exfalso. apply (Qlt_not_le _ _ H E).
Qed.

Lemma Qlt_bool_false a b : Qlt_bool a b = false ↔ b <= a.
Proof.
  unfold Qlt_bool. rewrite negb_false_iff. apply Qle_bool_iff.
Qed.

(** ** What each store primitive leaves alone *)

Lemma decrement_stock_frame ls st :
  customers (decrement_stock ls st) = customers st
  ∧ bills (decrement_stock ls st) = bills st
  ∧ payments (decrement_stock ls st) = payments st
  ∧ transactions (decrement_stock ls st) = transactions st
  ∧ refunds (decrement_stock ls st) = refunds st
  ∧ nextId (decrement_stock ls st) = nextId st.
Proof.
  unfold decrement_stock. revert st.
  induction ls as [|l ls IH]; intros st; simpl; [done|].
  destruct (IH (inc_stock (BillLine.itemId l) (- BillLine.quantity l) st))
    as (-> & -> & -> & -> & -> & ->). done.
Qed.

Lemma decrement_stock_items ls items0 c b p t r n c' b' p' t' r' n' :
  items (decrement_stock ls (mkStore items0 c b p t r n))
  = items (decrement_stock ls (mkStore items0 c' b' p' t' r' n')).
Proof.
  unfold decrement_stock. revert items0.
  induction ls as [|l ls IH]; intros items0; simpl; [done|]. apply IH.
Qed.

(** ** POST /api/bills: the field checks *)

Lemma push_if_nil c e : push_if c e = [] → c = false.
Proof. by destruct c. Qed.

Lemma bill_field_errors_nil b :
  bill_field_errors b = [] →
  is_Some (BillReq.customerId b)
  ∧ BillReq.items b ≠ []
  ∧ is_positive (BillReq.subtotal b) = true
  ∧ is_percent (BillReq.markup b) = true
  ∧ is_percent (BillReq.discount b) = true
  ∧ is_positive (BillReq.grandTotal b) = true
  ∧ is_payment_type (BillReq.paymentType b) = true
  ∧ is_non_negative (BillReq.partialPayment b) = true.
Proof.
  unfold bill_field_errors. intros H.
  repeat (apply app_eq_nil in H as [?%push_if_nil H]).
  apply push_if_nil in H.
  repeat match goal with
         | H : negb _ = false |- _ => apply negb_false_iff in H
         end.
  repeat split; try done.
  - by eapply bool_decide_eq_true_1.
  - by eapply bool_decide_eq_false_1.
Qed.

(** A request that fails a field check is answered with the whole list of
    failed checks ([errors.join('; ')], line 257). *)
Lemma bills_handler_field_errors statusEnum st b :
  bill_field_errors b ≠ [] →
  bills_handler statusEnum st b = (st, json_error 400 (FieldErrors (bill_field_errors b))).
Proof. unfold bills_handler. by destruct (bill_field_errors b). Qed.

(** ** POST /api/bills: the two outcomes *)

Section BillsHandler.

Variable statusEnum : list string.

(** A response other than 201 leaves the store as it was. *)
Lemma bills_handler_rejected st b st' r :
  bills_handler statusEnum st b = (st', r) →
  status r ≠ 201%nat →
  st' = st.
Proof.
  unfold bills_handler, json_error. intros H Hs.
  repeat (case_match; simplify_eq/=; try done).
Qed.

Lemma bills_handler_error st b st' r :
  bills_handler statusEnum st b = (st', r) →
  status r ≠ 201%nat →
  ∃ code e, r = json_error code e.
Proof.
  unfold bills_handler, json_error. intros H Hs.
  repeat (case_match; simplify_eq/=; try done); by eexists _, _.
Qed.

(** A 201 response: what was checked and what was written. *)
Lemma bills_handler_created st b st' r :
  bills_handler statusEnum st b = (st', r) →
  status r = 201%nat →
  ∃ customerId customer subtotal markup discount grandTotal partialPayment populatedItems,
    BillReq.customerId b = Some customerId
    ∧ BillReq.subtotal b = Some subtotal
    ∧ BillReq.markup b = Some markup
    ∧ BillReq.discount b = Some discount
    ∧ BillReq.grandTotal b = Some grandTotal
    ∧ BillReq.partialPayment b = Some partialPayment
    ∧ bill_field_errors b = []
    ∧ customers st !! customerId = Some customer
    ∧ populate st (BillReq.items b) = inr populatedItems
    ∧ Qabs (sum_total populatedItems - subtotal) <= tolerance
    ∧ Qabs ((subtotal + subtotal * markup / 100)
            - (subtotal + subtotal * markup / 100) * discount / 100 - grandTotal) <= tolerance
    ∧ let billId := nextId st in
      let bill :=
        Bill.mk customerId populatedItems subtotal markup discount grandTotal
                (sum_totalCost populatedItems) (BillReq.paymentType b) partialPayment
                (if Qle_bool grandTotal partialPayment then "completed" else "pending") in
      let billTransaction :=
        Transaction.mk customerId (Some billId) None grandTotal TBill (DescBill billId) in
      let payment :=
        Payment.mk (S billId) customerId partialPayment (BillReq.paymentType b)
                   (Some (DescPaymentForBill billId)) in
      let paymentTransaction :=
        Transaction.mk customerId (Some billId) (Some (S billId)) (- partialPayment)
                       TPayment (DescPaymentForBill billId) in
      let created :=
        if Qlt_bool 0 partialPayment then [billTransaction; paymentTransaction]
        else [billTransaction] in
      r = mkResponse 201 (BillCreated billId bill created)
      ∧ items st' = items (decrement_stock populatedItems st)
      ∧ customers st'
        = <[customerId := Customer.set_balance
              (Customer.balance customer + (grandTotal - partialPayment)) customer]>
            (customers st)
      ∧ bills st' = <[billId := bill]> (bills st)
      ∧ transactions st' = transactions st ++ created
      ∧ payments st' = payments st ++ (if Qlt_bool 0 partialPayment then [payment] else [])
      ∧ refunds st' = refunds st
      ∧ (nextId st < nextId st')%nat.
Proof.
  unfold bills_handler, json_error. intros H Hs.
  repeat (case_match; simplify_eq/=; try done).
  all: eexists _, _, _, _, _, _, _, _.
  all: repeat match goal with
       | H : Qlt_bool tolerance _ = false |- _ => apply Qlt_bool_false in H
       end.
  all: repeat (split; [done|]).
  all: destruct st; simpl in *.
  all: match goal with
       | |- context [decrement_stock ?l ?s] =>
           pose proof (decrement_stock_frame l s) as (Hc & Hb & Hp & Ht & Hr & Hn)
       end; simpl in *.
  all: rewrite ?Hc, ?Hb, ?Hp, ?Ht, ?Hr, ?Hn, <- ?app_assoc; simpl.
  all: repeat match goal with
       | H : ?c = _ |- context [if ?c then _ else _] => rewrite H
       end.
  all: rewrite ?app_nil_r.
  all: repeat split; try done; try apply decrement_stock_items; lia.
Qed.

End BillsHandler.

(** ** Resolved lines and totals *)

Lemma line_fields_Some l f :
  line_fields l = Some f →
  BillReq.itemId l = Some f.1.1.1 ∧ BillReq.quantity l = Some f.1.1.2
  ∧ BillReq.unitPrice l = Some f.1.2 ∧ BillReq.customPrice l = Some f.2.
Proof.
  unfold line_fields. intros H.
  repeat (case_match; simplify_eq/=; try done).
Qed.

Lemma resolve_line_inr st index f pl :
  resolve_line st index f = inr pl →
  BillLine.itemId pl = f.1.1.1 ∧ BillLine.quantity pl = f.1.1.2
  ∧ BillLine.unitPrice pl = f.1.2 ∧ BillLine.customPrice pl = f.2
  ∧ BillLine.total pl = BillLine.quantity pl * BillLine.customPrice pl
  ∧ ∃ dbItem,
      items st !! BillLine.itemId pl = Some dbItem
      ∧ BillLine.quantity pl <= Item.stock dbItem
      ∧ Item.costPrice dbItem = Some (BillLine.unitCost pl)
      ∧ BillLine.totalCost pl = BillLine.quantity pl * BillLine.unitCost pl.
Proof.
  unfold resolve_line. destruct f as [[[i q] u] c]. intros H.
  repeat (case_match; simplify_eq/=; try done).
  repeat split; try done.
  match goal with H : Qlt_bool _ _ = false |- _ => apply Qlt_bool_false in H end.
  eauto 10.
Qed.

Lemma check_fields_inr index ls fs :
  check_fields index ls = inr fs → Forall2 (λ l f, line_fields l = Some f) ls fs.
Proof.
  revert index fs. induction ls as [|l ls IH]; intros index fs H; simpl in H.
  - simplify_eq. constructor.
  - repeat (case_match; simplify_eq/=; try done). constructor; eauto.
Qed.

Lemma resolve_lines_inr st index fs lines :
  resolve_lines st index fs = inr lines →
  Forall2 (λ f pl, ∃ k, resolve_line st k f = inr pl) fs lines.
Proof.
  revert index lines. induction fs as [|f fs IH]; intros index lines H; simpl in H.
  - simplify_eq. constructor.
  - repeat (case_match; simplify_eq/=; try done). constructor; eauto.
Qed.

Lemma populate_inr st ls lines :
  populate st ls = inr lines → Forall2 (resolves st) ls lines.
Proof.
  unfold populate. destruct (check_fields 0 ls) as [e|fs] eqn:Hc; [done|].
  intros Hr. apply check_fields_inr in Hc. apply resolve_lines_inr in Hr.
  revert lines Hr. induction Hc as [|l f ls fs Hl _ IH]; intros lines Hr.
  - inversion Hr. constructor.
  - inversion Hr as [|? pl ? lines' [k Hk] Hrest]; subst.
    constructor; [|by apply IH].
    apply line_fields_Some in Hl. apply resolve_line_inr in Hk.
    destruct Hl as (Hi & Hq & Hu & Hc).
    destruct Hk as (Ei & Eq & Eu & Ec & Ht & Hdb).
    unfold resolves. rewrite Hi, Hq, Hu, Hc, <- Ei, <- Eq, <- Eu, <- Ec.
    by repeat split.
Qed.

Lemma sum_total_from acc (ls : list BillLine.t) :
  fold_left (λ sum item, sum + BillLine.total item) ls acc
  == acc + fold_left (λ sum item, sum + BillLine.total item) ls 0.
Proof.
  revert acc. induction ls as [|l ls IH]; intros acc; simpl.
  - lra.
  - rewrite (IH (acc + _)), (IH (0 + _)). lra.
Qed.

Lemma sum_total_spec st ls lines :
  Forall2 (resolves st) ls lines → sum_total lines == spec_subtotal ls.
Proof.
  induction 1 as [|l pl ls lines Hl _ IH]; [reflexivity|].
  unfold sum_total in *. simpl. rewrite sum_total_from, IH.
  destruct Hl as (_ & Hq & _ & Hc & Ht & _).
  unfold line_amount. rewrite Hq, Hc, Ht. simpl. lra.
Qed.

Lemma calculatedGrandTotal_spec subtotal markup discount :
  (subtotal + subtotal * markup / 100)
  - (subtotal + subtotal * markup / 100) * discount / 100
  == spec_grandTotal subtotal markup discount.
Proof. unfold spec_grandTotal. field. Qed.

(** ** Bill creation: balance and ledger *)

(** C1. For every bill-creation request that succeeds, the customer's
    stored balance afterwards equals the balance before plus grandTotal
    minus partialPayment; exactly one Transaction of type 'bill' with
    amount +grandTotal is created; and a second Transaction, of type
    'payment' with amount -partialPayment, is created if and only if
    partialPayment > 0. *)
Theorem C1_bill_balance_and_ledger st b st' r :
  post_api_bills st b = (st', r) →
  status r = 201%nat →
  ∃ customerId grandTotal partialPayment before after billTransaction,
    BillReq.customerId b = Some customerId
    ∧ BillReq.grandTotal b = Some grandTotal
    ∧ BillReq.partialPayment b = Some partialPayment
    ∧ customers st !! customerId = Some before
    ∧ customers st' !! customerId = Some after
    ∧ Customer.balance after == Customer.balance before + grandTotal - partialPayment
    ∧ Transaction.customerId billTransaction = customerId
    ∧ Transaction.type billTransaction = TBill
    ∧ Transaction.amount billTransaction = grandTotal
    ∧ ((0 < partialPayment
        ∧ ∃ paymentTransaction,
            Transaction.customerId paymentTransaction = customerId
            ∧ Transaction.type paymentTransaction = TPayment
            ∧ Transaction.amount paymentTransaction = - partialPayment
            ∧ transactions st'
              = transactions st ++ [billTransaction; paymentTransaction])
       ∨ (¬ 0 < partialPayment
          ∧ transactions st' = transactions st ++ [billTransaction])).
Proof.
  intros H Hs.
  destruct (bills_handler_created _ _ _ _ _ H Hs)
    as (customerId & customer & subtotal & markup & discount & grandTotal
        & partialPayment & lines & Hc & _ & _ & _ & Hg & Hp & _ & Hcust & _ & _ & _
        & _ & _ & Hcs & _ & Hts & _).
  eexists customerId, grandTotal, partialPayment, customer, _,
    (Transaction.mk customerId (Some (nextId st)) None grandTotal TBill
                    (DescBill (nextId st))).
  repeat split; try done.
  - rewrite Hcs. apply lookup_insert_eq.
  - simpl. lra.
  - rewrite Hts. destruct (Qlt_bool 0 partialPayment) eqn:E.
    + left. apply Qlt_bool_true in E. split; [done|]. eexists. by repeat split.
    + right. apply Qlt_bool_false in E. split; [|done]. by apply Qle_not_lt.
Qed.

Lemma C1_bill_balance_and_ledger_witness :
  ∃ customerId grandTotal partialPayment before after billTransaction,
    BillReq.customerId Shop.bill_paid = Some customerId
    ∧ BillReq.grandTotal Shop.bill_paid = Some grandTotal
    ∧ BillReq.partialPayment Shop.bill_paid = Some partialPayment
    ∧ customers Shop.st0 !! customerId = Some before
    ∧ customers (post_api_bills Shop.st0 Shop.bill_paid).1 !! customerId = Some after
    ∧ Customer.balance after == Customer.balance before + grandTotal - partialPayment
    ∧ Transaction.customerId billTransaction = customerId
    ∧ Transaction.type billTransaction = TBill
    ∧ Transaction.amount billTransaction = grandTotal
    ∧ ((0 < partialPayment
        ∧ ∃ paymentTransaction,
            Transaction.customerId paymentTransaction = customerId
            ∧ Transaction.type paymentTransaction = TPayment
            ∧ Transaction.amount paymentTransaction = - partialPayment
            ∧ transactions (post_api_bills Shop.st0 Shop.bill_paid).1
              = transactions Shop.st0 ++ [billTransaction; paymentTransaction])
       ∨ (¬ 0 < partialPayment
          ∧ transactions (post_api_bills Shop.st0 Shop.bill_paid).1
            = transactions Shop.st0 ++ [billTransaction])).
Proof.
  apply (C1_bill_balance_and_ledger Shop.st0 Shop.bill_paid
           (post_api_bills Shop.st0 Shop.bill_paid).1
           (post_api_bills Shop.st0 Shop.bill_paid).2).
  - apply surjective_pairing.
  - vm_compute. reflexivity.
Defined.

(** ** Bill creation: verification of the totals *)

(** The decision taken at lines 283-292 once the field checks, the
    customer lookup and the resolution of the lines have passed. *)
Lemma bills_handler_totals statusEnum st b customerId customer subtotal markup discount
      grandTotal partialPayment lines :
  bill_field_errors b = [] →
  BillReq.customerId b = Some customerId →
  BillReq.subtotal b = Some subtotal →
  BillReq.markup b = Some markup →
  BillReq.discount b = Some discount →
  BillReq.grandTotal b = Some grandTotal →
  BillReq.partialPayment b = Some partialPayment →
  customers st !! customerId = Some customer →
  populate st (BillReq.items b) = inr lines →
  let calculatedGrandTotal :=
    (subtotal + subtotal * markup / 100)
    - (subtotal + subtotal * markup / 100) * discount / 100 in
  (tolerance < Qabs (sum_total lines - subtotal) →
   bills_handler statusEnum st b
   = (st, json_error 400 (SubtotalMismatch subtotal (sum_total lines))))
  ∧ (Qabs (sum_total lines - subtotal) <= tolerance →
     tolerance < Qabs (calculatedGrandTotal - grandTotal) →
     bills_handler statusEnum st b
     = (st, json_error 400 (GrandTotalMismatch grandTotal calculatedGrandTotal))).
Proof.
  intros He Hc Hs Hm Hd Hg Hp Hcust Hpop calc. unfold bills_handler.
  rewrite He, Hc, Hs, Hm, Hd, Hg, Hp, Hcust, Hpop. split.
  - intros H1. apply Qlt_bool_true in H1. by rewrite H1.
  - intros H1 H2. apply Qlt_bool_false in H1. apply Qlt_bool_true in H2.
    rewrite H1. fold calc. by rewrite H2.
Qed.

(** ** Bill creation: rejected requests *)

Lemma resolves_elem_of st ls lines l :
  Forall2 (resolves st) ls lines → l ∈ ls → ∃ pl, resolves st l pl.
Proof.
  intros HF Hl. apply list_elem_of_lookup in Hl as [i Hi].
  destruct (Forall2_lookup_l _ _ _ _ _ HF Hi) as (pl & _ & Hpl). eauto.
Qed.

Lemma check_fields_elem_of index ls fs l :
  check_fields index ls = inr fs → l ∈ ls → is_Some (line_fields l).
Proof.
  intros HF Hl. apply check_fields_inr in HF.
  apply list_elem_of_lookup in Hl as [i Hi].
  destruct (Forall2_lookup_l _ _ _ _ _ HF Hi) as (f & _ & Hf). eauto.
Qed.

(** A request that fails validation is never answered with 201. *)
Lemma fails_validation_rejected statusEnum st b st' r :
  fails_validation st b →
  bills_handler statusEnum st b = (st', r) →
  status r ≠ 201%nat.
Proof.
  intros Hf H Hs.
  destruct (bills_handler_created _ _ _ _ _ H Hs)
    as (customerId & customer & subtotal & markup & discount & grandTotal
        & partialPayment & lines & Hc & Hsub & Hm & Hd & Hg & _ & He & Hcust & Hpop
        & Hts & Htg & _).
  pose proof (populate_inr _ _ _ Hpop) as HF.
  destruct Hf as [Hne|c Hc' Hnone|l Hl Hlf|l i Hl Hi Hnone|l i q dbItem Hl Hi Hq Hdb Hlt
                 |l i dbItem Hl Hi Hdb Hcost
                 |sub Hsub' Hgt|sub mk dc g Hsub' Hm' Hd' Hg' Hgt].
  - done.
  - congruence.
  - unfold populate in Hpop. destruct (check_fields 0 (BillReq.items b)) eqn:E; [done|].
    destruct (check_fields_elem_of _ _ _ _ E Hl) as [f Hf]. congruence.
  - destruct (resolves_elem_of _ _ _ _ HF Hl) as (pl & Hi' & _ & _ & _ & _ & db & Hdb & _).
    congruence.
  - destruct (resolves_elem_of _ _ _ _ HF Hl)
      as (pl & Hi' & Hq' & _ & _ & _ & db & Hdb' & Hle & _).
    simplify_eq. apply (Qlt_not_le _ _ Hlt Hle).
  - destruct (resolves_elem_of _ _ _ _ HF Hl)
      as (pl & Hi' & _ & _ & _ & _ & db & Hdb' & _ & Hcost' & _).
    simplify_eq.
  - simplify_eq. rewrite <- (sum_total_spec _ _ _ HF) in Hgt.
    apply (Qlt_not_le _ _ Hgt Hts).
  - simplify_eq. rewrite <- calculatedGrandTotal_spec in Hgt.
    apply (Qlt_not_le _ _ Hgt Htg).
Qed.



(** ** Bill creation: stock *)

Lemma inc_stock_lookup id d st i :
  items (inc_stock id d st) !! i
  = if decide (id = i) then Item.inc_stock d <$> items st !! i else items st !! i.
Proof.
  unfold inc_stock; simpl. rewrite lookup_alter.
  destruct (decide (id = i)); by subst.
Qed.

(** After the decrement loop an item has lost the quantities of all the
    lines that name it. *)
Lemma decrement_stock_lookup ls st i it :
  items st !! i = Some it →
  ∃ it', items (decrement_stock ls st) !! i = Some it'
         ∧ Item.stock it' == Item.stock it - ordered_quantity i ls
         ∧ Item.name it' = Item.name it
         ∧ Item.costPrice it' = Item.costPrice it.
Proof.
  unfold decrement_stock. revert st it.
  induction ls as [|l ls IH]; intros st it Hit; simpl.
  - exists it. repeat split; try done. lra.
  - destruct (decide (BillLine.itemId l = i)) as [Heq|Hne].
    + edestruct (IH (inc_stock (BillLine.itemId l) (- BillLine.quantity l) st))
        as (it' & H1 & H2 & H3 & H4).
      { rewrite inc_stock_lookup, decide_True, Hit by done. reflexivity. }
      exists it'. rewrite bool_decide_eq_true_2 by done.
      repeat split; try done. rewrite H2. simpl. lra.
    + edestruct (IH (inc_stock (BillLine.itemId l) (- BillLine.quantity l) st))
        as (it' & H1 & H2 & H3 & H4).
      { rewrite inc_stock_lookup, decide_False by done. exact Hit. }
      exists it'. rewrite bool_decide_eq_false_2 by done. by repeat split.
Qed.

Lemma ordered_requested st ls lines i :
  Forall2 (resolves st) ls lines →
  ordered_quantity i lines == requested_quantity i ls.
Proof.
  induction 1 as [|l pl ls lines Hl _ IH]; simpl; [reflexivity|].
  destruct Hl as (Hi & Hq & _). rewrite Hi, Hq. simpl.
  destruct (decide (BillLine.itemId pl = i)) as [Heq|Hne].
  - rewrite !bool_decide_eq_true_2 by congruence. by rewrite IH.
  - rewrite !bool_decide_eq_false_2 by congruence. exact IH.
Qed.

(** An accepted bill takes from every item the quantity requested by all
    the lines that name it. *)
Lemma bill_created_stock st b st' r i it :
  post_api_bills st b = (st', r) →
  status r = 201%nat →
  items st !! i = Some it →
  ∃ it', items st' !! i = Some it'
         ∧ Item.stock it' == Item.stock it - requested_quantity i (BillReq.items b).
Proof.
  intros H Hs Hit.
  destruct (bills_handler_created _ _ _ _ _ H Hs)
    as (customerId & customer & subtotal & markup & discount & grandTotal
        & partialPayment & lines & _ & _ & _ & _ & _ & _ & _ & _ & Hpop & _ & _
        & _ & Hitems & _).
  destruct (decrement_stock_lookup lines st i it Hit) as (it' & H1 & H2 & _).
  exists it'. rewrite Hitems. split; [done|].
  by rewrite H2, (ordered_requested st (BillReq.items b)) by by apply populate_inr.
Qed.

Lemma requested_quantity_absent i ls :
  Some i ∉ BillReq.itemId <$> ls → requested_quantity i ls == 0.
Proof.
  induction ls as [|l ls IH]; simpl; [reflexivity|].
  intros [Hne Hrest]%not_elem_of_cons.
  rewrite bool_decide_eq_false_2 by congruence. by apply IH.
Qed.

Lemma requested_quantity_unique i q l ls :
  NoDup (BillReq.itemId <$> ls) →
  l ∈ ls → BillReq.itemId l = Some i → BillReq.quantity l = Some q →
  requested_quantity i ls == q.
Proof.
  induction ls as [|l0 ls IH]; simpl; intros Hnd Hl Hi Hq.
  - by apply elem_of_nil in Hl.
  - apply NoDup_cons in Hnd as [Hnotin Hnd].
    apply elem_of_cons in Hl as [<-|Hl].
    + rewrite bool_decide_eq_true_2, Hq by done. simpl.
      rewrite requested_quantity_absent; [lra|by rewrite <- Hi].
    + rewrite bool_decide_eq_false_2.
      * by apply IH.
      * intros Heq. apply Hnotin. rewrite Heq, <- Hi. by apply list_elem_of_fmap_2.
Qed.

(** When no two lines of an accepted bill name the same item, each line's
    item loses exactly that line's quantity and keeps a stock that is not
    negative. *)
Lemma bill_created_stock_distinct st b st' r l i q it :
  post_api_bills st b = (st', r) →
  status r = 201%nat →
  NoDup (BillReq.itemId <$> BillReq.items b) →
  l ∈ BillReq.items b →
  BillReq.itemId l = Some i →
  BillReq.quantity l = Some q →
  items st !! i = Some it →
  ∃ it', items st' !! i = Some it'
         ∧ Item.stock it' == Item.stock it - q
         ∧ 0 <= Item.stock it'.
Proof.
  intros H Hs Hnd Hl Hi Hq Hit.
  destruct (bill_created_stock _ _ _ _ _ _ H Hs Hit) as (it' & Hit' & Hst).
  rewrite (requested_quantity_unique i q l) in Hst by done.
  destruct (bills_handler_created _ _ _ _ _ H Hs)
    as (? & ? & ? & ? & ? & ? & ? & lines & _ & _ & _ & _ & _ & _ & _ & _ & Hpop & _).
  apply populate_inr in Hpop.
  destruct (resolves_elem_of _ _ _ _ Hpop Hl)
    as (pl & Hi' & Hq' & _ & _ & _ & db & Hdb & Hle & _).
  simplify_eq. exists it'. split; [done|]. split; lra.
Qed.

(** C2. For every bill-creation request that succeeds, each line item's
    stored stock decreases by exactly that line's quantity, and no item's
    stock ever becomes negative.  The handler checks each line against the
    stock read before any decrement, so two lines for the same item that
    each fit the stock are both accepted: with a stock of 5, two lines of
    3 x A are answered with 201 and leave a stock of -1. *)
Theorem C2_duplicate_lines_negative_stock :
  Item.stock <$> items Shop.st0 !! Shop.A = Some 5
  ∧ status (post_api_bills Shop.st0 Duplicate.bill).2 = 201%nat
  ∧ Item.stock <$> items (post_api_bills Shop.st0 Duplicate.bill).1 !! Shop.A = Some (-1).
Proof. vm_compute. done. Qed.

(** ** Refunds *)

Section RefundsHandler.

Variable statusEnum : list string.

(** The item loop writes stock only. *)
Lemma refund_items_frame bill its st :
  let st' := (refund_items bill its st).1 in
  customers st' = customers st
  ∧ bills st' = bills st
  ∧ payments st' = payments st
  ∧ transactions st' = transactions st
  ∧ refunds st' = refunds st
  ∧ nextId st' = nextId st.
Proof.
  revert st. induction its as [|item its IH]; intros st; simpl; [done|].
  repeat (case_match; simpl; try done).
  apply (IH (inc_stock _ _ st)).
Qed.

(** The loop stops with an error as soon as it meets a refused line. *)
Lemma refund_items_refused bill its st :
  Exists (refused_line bill) its → is_Some (refund_items bill its st).2.
Proof.
  intros HE. revert st. induction HE as [item its Hr|item its _ IH]; intros st; simpl.
  - unfold refused_line in Hr.
    destruct (List.find _ (Bill.items bill)) as [bi|]; [|by eexists].
    apply Qlt_bool_true in Hr. rewrite Hr. by eexists.
  - repeat (case_match; simpl; try by eexists). apply IH.
Qed.

Lemma refund_items_accepts bill its st :
  Forall (λ item, ¬ refused_line bill item) its → (refund_items bill its st).2 = None.
Proof.
  intros HF. revert st. induction HF as [|item its Hr _ IH]; intros st; simpl; [done|].
  unfold refused_line in Hr.
  destruct (List.find _ (Bill.items bill)) as [bi|]; [|done].
  destruct (Qlt_bool (BillLine.quantity bi) (RefundLine.quantity item)) eqn:E.
  - apply Qlt_bool_true in E. done.
  - apply IH.
Qed.

(** Whatever the outcome, a refund request leaves payments and the
    counter alone; a response other than 201 also leaves customers,
    bills and the ledger alone. *)
Lemma refunds_handler_rejected st r st' resp :
  refunds_handler statusEnum st r = (st', resp) →
  status resp ≠ 201%nat →
  customers st' = customers st
  ∧ bills st' = bills st
  ∧ transactions st' = transactions st
  ∧ payments st' = payments st
  ∧ nextId st' = nextId st.
Proof.
  unfold refunds_handler, json_error. intros H Hs.
  repeat (case_match; simplify_eq/=; try done).
  all: match goal with
       | H : refund_items ?b ?l ?s = _ |- _ =>
           pose proof (refund_items_frame b l s) as (Hc & Hb & Hp & Ht & Hr & Hn);
           rewrite H in Hc, Hb, Hp, Ht, Hr, Hn; simpl in Hc, Hb, Hp, Ht, Hr, Hn
       end.
  all: by repeat split.
Qed.

Lemma refunds_handler_error st r st' resp :
  refunds_handler statusEnum st r = (st', resp) →
  status resp ≠ 201%nat →
  ∃ code e, resp = json_error code e.
Proof.
  unfold refunds_handler, json_error. intros H Hs.
  repeat (case_match; simplify_eq/=; try done); by eexists _, _.
Qed.

(** A 201 response: what was checked and what was written. *)
Lemma refunds_handler_accepted st r st' resp :
  refunds_handler statusEnum st r = (st', resp) →
  status resp = 201%nat →
  ∃ billId customerId amount bill customer,
    RefundReq.billId r = Some billId
    ∧ RefundReq.customerId r = Some customerId
    ∧ RefundReq.amount r = Some amount
    ∧ 0 < amount
    ∧ bills st !! billId = Some bill
    ∧ Bill.status bill ≠ "refunded"
    ∧ customers st !! customerId = Some customer
    ∧ (refund_items bill (RefundReq.items r) st).2 = None
    ∧ "refunded" ∈ statusEnum
    ∧ let transaction :=
        Transaction.mk customerId (Some billId) None (- amount) TRefund
                       (DescRefundForBill billId (RefundReq.reason r)) in
      let refund :=
        Refund.mk billId customerId amount (RefundReq.items r) (RefundReq.reason r) in
      resp = mkResponse 201 (RefundProcessed refund transaction)
      ∧ items st' = items (refund_items bill (RefundReq.items r) st).1
      ∧ bills st' = <[billId := Bill.set_status "refunded" bill]> (bills st)
      ∧ customers st'
        = <[customerId := Customer.set_balance (Customer.balance customer - amount) customer]>
            (customers st)
      ∧ transactions st' = transactions st ++ [transaction]
      ∧ refunds st' = refunds st ++ [refund]
      ∧ payments st' = payments st
      ∧ nextId st' = nextId st.
Proof.
  unfold refunds_handler, json_error, Bill_validate. intros H Hs.
  repeat (case_match; simplify_eq/=; try done).
  repeat match goal with
         | H : _ || _ = false |- _ => apply orb_false_elim in H as [? ?]
         end.
  match goal with
  | H : Qle_bool ?q 0 = false |- _ =>
      assert (0 < q) by (apply (proj1 (Qlt_bool_true 0 q)); unfold Qlt_bool; by rewrite H)
  end.
  match goal with
  | H : refund_items ?b ?l ?s = _ |- _ =>
      pose proof (refund_items_frame b l s) as (Hc & Hb & Hp & Ht & Hr & Hn);
      rewrite H in Hc, Hb, Hp, Ht, Hr, Hn; simpl in Hc, Hb, Hp, Ht, Hr, Hn;
      rewrite Hc, Hb, Hp, Ht, Hr, Hn;
      eexists _, _, _, b, _; rewrite H; simpl
  end.
  repeat split; try done.
  - by eapply bool_decide_eq_false_1.
  - by eapply bool_decide_eq_true_1.
Qed.

(** Once a bill is stored with status 'refunded', every refund request
    against it is answered with 400 and changes nothing. *)
Lemma refunds_handler_already_refunded st r billId bill :
  RefundReq.billId r = Some billId →
  bills st !! billId = Some bill →
  Bill.status bill = "refunded" →
  ∃ e, refunds_handler statusEnum st r = (st, json_error 400 e).
Proof.
  intros Hid Hb Hs. unfold refunds_handler. rewrite Hid.
  repeat (case_match; simplify_eq/=; try done); try by eexists.
  all: match goal with
       | H : bool_decide (Bill.status _ = "refunded") = false |- _ =>
           by apply bool_decide_eq_false_1 in H
       end.
Qed.

(** When the enum lists 'refunded', a request that passes the checks of
    lines 393-412 is answered with 201. *)
Lemma refunds_handler_accepts st r billId customerId amount bill customer :
  "refunded" ∈ statusEnum →
  RefundReq.billId r = Some billId →
  RefundReq.customerId r = Some customerId →
  RefundReq.amount r = Some amount →
  0 < amount →
  RefundReq.items r ≠ [] →
  RefundReq.reason r ≠ "" →
  bills st !! billId = Some bill →
  Bill.status bill ≠ "refunded" →
  customers st !! customerId = Some customer →
  Forall (λ item, ¬ refused_line bill item) (RefundReq.items r) →
  status (refunds_handler statusEnum st r).2 = 201%nat.
Proof.
  intros Hin Hbid Hcid Ham Hpos Hitems Hreason Hb Hs Hc HF.
  unfold refunds_handler, Bill_validate. rewrite Hbid, Hcid, Ham. simpl.
  assert (Qeq_bool amount 0 = false) as ->.
  { destruct (Qeq_bool amount 0) eqn:E; [|done]. apply Qeq_bool_iff in E. lra. }
  assert (Qle_bool amount 0 = false) as ->.
  { destruct (Qle_bool amount 0) eqn:E; [|done]. apply Qle_bool_iff in E. lra. }
  rewrite !bool_decide_eq_false_2 by done. simpl. rewrite Hb.
  rewrite bool_decide_eq_false_2 by done. rewrite Hc.
  pose proof (refund_items_accepts bill _ st HF) as Hnone.
  destruct (refund_items bill (RefundReq.items r) st) as [st1 e]. simpl in Hnone. subst e.
  simpl. by rewrite bool_decide_eq_true_2.
Qed.

End RefundsHandler.

(** With the schema of line 68, saving a bill whose status was set to
    'refunded' fails validation. *)
Lemma Bill_validate_refunded bill :
  Bill_validate billSchema_status_enum (Bill.set_status "refunded" bill)
  = Some (NotValidEnumValue "status" "refunded").
Proof. reflexivity. Qed.

(** Hence no refund request is ever answered with 201, and none reaches
    the bill, the balance or the ledger. *)
Lemma post_api_refunds_never_accepted st r :
  status (post_api_refunds st r).2 ≠ 201%nat.
Proof.
  intros Hs.
  destruct (refunds_handler_accepted billSchema_status_enum st r
              (post_api_refunds st r).1 (post_api_refunds st r).2
              (surjective_pairing _) Hs)
    as (? & ? & ? & ? & ? & _ & _ & _ & _ & _ & _ & _ & _ & Hin & _).
  unfold billSchema_status_enum in Hin.
  repeat (apply elem_of_cons in Hin as [Hin|Hin]; [done|]).
  by apply elem_of_nil in Hin.
Qed.

Lemma post_api_refunds_frame st r :
  customers (post_api_refunds st r).1 = customers st
  ∧ bills (post_api_refunds st r).1 = bills st
  ∧ transactions (post_api_refunds st r).1 = transactions st
  ∧ payments (post_api_refunds st r).1 = payments st
  ∧ nextId (post_api_refunds st r).1 = nextId st.
Proof.
  eapply refunds_handler_rejected; [apply surjective_pairing|].
  apply post_api_refunds_never_accepted.
Qed.

(** A refund answered with 201 stores the bill as 'refunded', after which
    no refund request against that bill changes anything.  (The premise
    can only be met when the enum lists 'refunded'.) *)
Lemma refunds_handler_terminal statusEnum st r st' resp :
  refunds_handler statusEnum st r = (st', resp) →
  status resp = 201%nat →
  ∃ billId,
    RefundReq.billId r = Some billId
    ∧ Bill.status <$> bills st' !! billId = Some "refunded"
    ∧ ∀ r', RefundReq.billId r' = Some billId →
            ∃ e, refunds_handler statusEnum st' r' = (st', json_error 400 e).
Proof.
  intros H Hs.
  destruct (refunds_handler_accepted _ _ _ _ _ H Hs)
    as (billId & customerId & amount & bill & customer & Hb & _ & _ & _ & _ & _ & _ & _
        & _ & _ & _ & Hbills & _).
  assert (bills st' !! billId = Some (Bill.set_status "refunded" bill)) as Hl.
  { rewrite Hbills. apply lookup_insert_eq. }
  exists billId. split; [done|]. split; [by rewrite Hl|].
  intros r' Hr'. by eapply refunds_handler_already_refunded.
Qed.

(** A request with a refused line is never answered with 201, whatever
    the enum, and leaves customers, bills and the ledger alone. *)
Lemma refunds_handler_refused_line statusEnum st r st' resp billId bill :
  refunds_handler statusEnum st r = (st', resp) →
  RefundReq.billId r = Some billId →
  bills st !! billId = Some bill →
  Exists (refused_line bill) (RefundReq.items r) →
  status resp ≠ 201%nat
  ∧ customers st' = customers st
  ∧ transactions st' = transactions st.
Proof.
  intros H Hid Hb HE.
  assert (status resp ≠ 201%nat) as Hs.
  { intros Hs.
    destruct (refunds_handler_accepted _ _ _ _ _ H Hs)
      as (billId' & ? & ? & bill' & ? & Hid' & _ & _ & _ & Hb' & _ & _ & Hnone & _).
    simplify_eq.
    destruct (refund_items_refused _ _ st HE) as [e He]. congruence. }
  split; [done|].
  destruct (refunds_handler_rejected _ _ _ _ _ H Hs) as (? & _ & ? & _). done.
Qed.

(** C7. For every refund request containing a line whose itemId has no
    matching line on the bill, or whose quantity exceeds the bill line's
    quantity, the request is rejected and no stock or balance mutation
    occurs.  The loop that validates the lines also writes the stock
    increment of each line it has accepted: a request for 1 x A followed by
    3 x A against a bill line of 2 x A is rejected with 400, the balance is
    untouched, but the stock of A has gone from 3 to 4; likewise when the
    second line names an item that is not on the bill.  The enum of the
    Bill schema plays no part in this. *)
Theorem C7_refused_refund_line_after_stock_write :
  let excess := post_api_refunds Shop.st1 Refunds.too_many in
  let absent := post_api_refunds Shop.st1 Refunds.not_on_bill in
  Item.stock <$> items Shop.st1 !! Shop.A = Some 3
  ∧ excess.2 = json_error 400 (InvalidRefundQuantity Shop.A)
  ∧ customers excess.1 = customers Shop.st1
  ∧ Item.stock <$> items excess.1 !! Shop.A = Some 4
  ∧ absent.2 = json_error 400 (InvalidRefundQuantity Shop.missing)
  ∧ customers absent.1 = customers Shop.st1
  ∧ Item.stock <$> items absent.1 !! Shop.A = Some 4
  ∧ refunds_handler repaired_status_enum Shop.st1 Refunds.too_many = excess.
Proof. vm_compute. done. Qed.

(** C9. For every refund request whose customerId denotes an existing
    customer other than the bill's, the refund is still accepted and the
    balance decrement and the refund ledger entry go to the customer named
    in the request.  No check ties the customer to the bill, and with
    'refunded' in the enum the handler does exactly that (Bob: 0 to -55,
    Alice untouched).  On the server the request is answered with 400 by
    [bill.save()]: Bob's balance and the ledger are unchanged, although
    the stock increment and a Refund record naming Bob are stored. *)
Theorem C9_refund_for_other_customer_not_applied :
  let served := post_api_refunds Shop.st1 Refunds.for_bob in
  let repaired := refunds_handler repaired_status_enum Shop.st1 Refunds.for_bob in
  Bill.customerId <$> bills Shop.st1 !! Shop.bill1 = Some Shop.alice
  ∧ Customer.balance <$> customers Shop.st1 !! Shop.bob = Some 0
  ∧ served.2 = json_error 400 (NotValidEnumValue "status" "refunded")
  ∧ customers served.1 = customers Shop.st1
  ∧ transactions served.1 = transactions Shop.st1
  ∧ Refund.customerId <$> refunds served.1 = [Shop.bob]
  ∧ Item.stock <$> items served.1 !! Shop.A = Some 5
  ∧ status repaired.2 = 201%nat
  ∧ Customer.balance <$> customers repaired.1 !! Shop.bob = Some (-55)
  ∧ Customer.balance <$> customers repaired.1 !! Shop.alice = Some 55
  ∧ (Transaction.customerId <$> last (transactions repaired.1)) = Some Shop.bob.
Proof. vm_compute. done. Qed.

(** C10. For every refund request any positive amount is accepted,
    whatever the bill's grandTotal or partialPayment, and the customer's
    balance decreases by exactly that amount.  The amount is compared with
    no bill field, and with 'refunded' in the enum a refund of 1000000
    against a bill of 55 takes the balance from 55 to -999945.  On the
    server the request is answered with 400 by [bill.save()] and the
    balance stays at 55. *)
Theorem C10_refund_amount_not_applied :
  let served := post_api_refunds Shop.st1 Refunds.excessive in
  let repaired := refunds_handler repaired_status_enum Shop.st1 Refunds.excessive in
  Bill.grandTotal <$> bills Shop.st1 !! Shop.bill1 = Some 55
  ∧ Customer.balance <$> customers Shop.st1 !! Shop.alice = Some 55
  ∧ served.2 = json_error 400 (NotValidEnumValue "status" "refunded")
  ∧ Customer.balance <$> customers served.1 !! Shop.alice = Some 55
  ∧ transactions served.1 = transactions Shop.st1
  ∧ Refund.amount <$> refunds served.1 = [1000000]
  ∧ status repaired.2 = 201%nat
  ∧ Customer.balance <$> customers repaired.1 !! Shop.alice = Some (-999945).
Proof. vm_compute. done. Qed.

(** ** Bill creation: status codes *)

(** The handler answers 201, 400 or 404, and 404 exactly when the field
    checks pass and the customer is absent. *)
Lemma bills_handler_status statusEnum st b :
  let resp := (bills_handler statusEnum st b).2 in
  (status resp = 201 ∨ status resp = 400 ∨ status resp = 404)%nat
  ∧ (status resp = 404%nat ↔
     bill_field_errors b = []
     ∧ ∃ customerId, BillReq.customerId b = Some customerId
                     ∧ customers st !! customerId = None).
Proof.
  unfold bills_handler, json_error.
  repeat (case_match; simplify_eq/=; try done).
  all: split; [auto|].
  all: split;
    [ intros Hs; first [discriminate Hs | split; [done|eauto]]
    | intros [He (c & Hc & Hn)]; simplify_eq; try done; try congruence ].
  all: match goal with
       | H : bill_field_errors _ = [] |- _ =>
           apply bill_field_errors_nil in H
             as ([? ?] & _ & Hs & Hm & Hd & Hg & _ & Hp)
       end.
  all: unfold is_positive, is_percent, is_non_negative in *.
  all: repeat (case_match; simplify_eq/=; try done).
Qed.

(** A line whose item is absent makes the callback throw, and the [catch]
    of line 351 answers every thrown error with 400. *)
Lemma bills_handler_missing_item statusEnum st b l itemId :
  l ∈ BillReq.items b →
  BillReq.itemId l = Some itemId →
  items st !! itemId = None →
  status (bills_handler statusEnum st b).2 = 400%nat
  ∨ status (bills_handler statusEnum st b).2 = 404%nat.
Proof.
  intros Hl Hi Hnone.
  destruct (bills_handler_status statusEnum st b) as [[H|H] _]; [|tauto].
  exfalso. eapply (fails_validation_rejected statusEnum st b); [|apply surjective_pairing|done].
  by eapply fails_item.
Qed.

(** C8. POST /bills responds with status 404 whenever the referenced
    customer is absent and whenever any referenced item is absent, and
    with status 400 for validation failures.  The customer lookup of line
    261 does answer 404, but an absent item makes the callback of line 269
    throw, and the [catch] of lines 351-354 answers every thrown error
    with 400: a well-formed bill for the existing customer Alice whose
    one line names item 99, which is not in the catalogue, is answered
    with 400 'Item 0: Item not found', not with 404. *)
Theorem C8_missing_item_answered_400 :
  customers Shop.st0 !! Shop.missing = None
  ∧ (post_api_bills Shop.st0 Missing.customer).2
    = json_error 404 (CustomerNotFound Shop.missing)
  ∧ is_Some (customers Shop.st0 !! Shop.alice)
  ∧ items Shop.st0 !! Shop.missing = None
  ∧ (post_api_bills Shop.st0 Missing.item).2
    = json_error 400 (ItemNotFound 0 Shop.missing)
  ∧ status (post_api_bills Shop.st0 Missing.item).2 ≠ 404%nat.
Proof. vm_compute. repeat split; try done. by eexists. Qed.

(** ** Payments and accounts *)

(** POST /api/payments either answers 201, having moved the balance down
    by the amount and appended one ledger entry of the opposite amount, or
    leaves the store as it was. *)
Lemma post_api_payments_outcome st p st' resp :
  post_api_payments st p = (st', resp) →
  (st' = st ∧ ∃ code e, resp = json_error code e)
  ∨ (∃ customerId amount customer payment transaction,
       PaymentReq.customerId p = Some customerId
       ∧ PaymentReq.amount p = Some amount
       ∧ 0 < amount
       ∧ customers st !! customerId = Some customer
       ∧ resp = mkResponse 201 (PaymentRecorded payment transaction)
       ∧ Transaction.customerId transaction = customerId
       ∧ Transaction.amount transaction = - amount
       ∧ Transaction.type transaction = TPayment
       ∧ customers st'
         = <[customerId := Customer.set_balance (Customer.balance customer - amount) customer]>
             (customers st)
       ∧ transactions st' = transactions st ++ [transaction]
       ∧ (nextId st < nextId st')%nat).
Proof.
  unfold post_api_payments, json_error. intros H.
  repeat (case_match; simplify_eq/=; try done).
  all: try (left; split; [done|]; by eexists _, _).
  all: right.
  all: repeat match goal with
         | H : _ || _ = false |- _ => apply orb_false_elim in H as [? ?]
         end.
  all: match goal with
       | H : Qle_bool ?q 0 = false |- _ =>
           assert (0 < q) by (apply (proj1 (Qlt_bool_true 0 q)); unfold Qlt_bool; by rewrite H)
       end.
  all: eexists _, _, _, _, _; repeat split; try done; lia.
Qed.

(** POST /api/customers either answers 201, having stored the account
    under the next [_id] with the balance of the body (0 by default), or
    leaves the store as it was. *)
Lemma post_api_customers_outcome st c st' resp :
  post_api_customers st c = (st', resp) →
  (st' = st ∧ ∃ code e, resp = json_error code e)
  ∨ (∃ customer,
       resp = mkResponse 201 (CustomerCreated (nextId st) customer)
       ∧ Customer.balance customer = default 0 (CustomerReq.balance c)
       ∧ customers st' = <[nextId st := customer]> (customers st)
       ∧ transactions st' = transactions st
       ∧ nextId st' = S (nextId st)).
Proof.
  unfold post_api_customers, json_error. intros H.
  repeat (case_match; simplify_eq/=; try done).
  all: try (left; split; [done|]; by eexists _, _).
  right. eexists. by repeat split.
Qed.

(** ** Replaying the ledger *)

Lemma ledger_sum_app c ts us :
  ledger_sum c (ts ++ us) == ledger_sum c ts + ledger_sum c us.
Proof.
  induction ts as [|t ts IH]; simpl; [lra|].
  case_bool_decide; rewrite IH; lra.
Qed.

Lemma ledger_sum_other c ts :
  Forall (λ t, Transaction.customerId t ≠ c) ts → ledger_sum c ts == 0.
Proof.
  induction 1 as [|t ts Ht _ IH]; simpl; [reflexivity|].
  by rewrite bool_decide_eq_false_2.
Qed.

(** * Further properties of the handlers *)

(** ** Truthy fields *)

Lemma truthy_nonzero x : truthy x = true ↔ nonzero x.
Proof.
  unfold truthy, nonzero. destruct x as [q|].
  - rewrite negb_true_iff. split.
    + intros H. exists q. split; [done|]. intros Hq. apply Qeq_bool_iff in Hq. congruence.
    + intros (q' & [= <-] & Hq). destruct (Qeq_bool q 0) eqn:E; [|done].
      apply Qeq_bool_iff in E. done.
  - split; [done|]. by intros (q & ? & _).
Qed.

(** ** Bill creation: the stored document *)

Lemma sum_totalCost_from acc (ls : list BillLine.t) :
  fold_left (λ sum item, sum + BillLine.totalCost item) ls acc
  == acc + fold_left (λ sum item, sum + BillLine.totalCost item) ls 0.
Proof.
  revert acc. induction ls as [|l ls IH]; intros acc; simpl.
  - lra.
  - rewrite (IH (acc + _)), (IH (0 + _)). lra.
Qed.

Lemma sum_totalCost_spec st ls lines :
  Forall2 (resolves st) ls lines → sum_totalCost lines == lines_cost lines.
Proof.
  induction 1 as [|l pl ls lines Hl _ IH]; [reflexivity|].
  unfold sum_totalCost in *. simpl. rewrite sum_totalCost_from, IH.
  destruct Hl as (_ & _ & _ & _ & _ & db & _ & _ & _ & Ht). rewrite Ht. lra.
Qed.

(** X2. The bill returned by a 201 is the document stored under the next
    [_id].  It keeps the submitted customer, subtotal, markup, discount,
    grandTotal, paymentType and partialPayment; its status is 'completed'
    when partialPayment >= grandTotal and 'pending' otherwise; every line
    carries the item's costPrice at creation time as unitCost, with total
    and totalCost recomputed from it; grandTotalCost is the sum of
    quantity * unitCost. *)
Theorem X2_stored_bill st b st' billId bill created :
  post_api_bills st b = (st', mkResponse 201 (BillCreated billId bill created)) →
  billId = nextId st
  ∧ bills st' !! billId = Some bill
  ∧ BillReq.customerId b = Some (Bill.customerId bill)
  ∧ BillReq.subtotal b = Some (Bill.subtotal bill)
  ∧ BillReq.markup b = Some (Bill.markup bill)
  ∧ BillReq.discount b = Some (Bill.discount bill)
  ∧ BillReq.grandTotal b = Some (Bill.grandTotal bill)
  ∧ BillReq.partialPayment b = Some (Bill.partialPayment bill)
  ∧ BillReq.paymentType b = Bill.paymentType bill
  ∧ (Bill.grandTotal bill <= Bill.partialPayment bill → Bill.status bill = "completed")
  ∧ (Bill.partialPayment bill < Bill.grandTotal bill → Bill.status bill = "pending")
  ∧ Forall2 (resolves st) (BillReq.items b) (Bill.items bill)
  ∧ Bill.grandTotalCost bill == lines_cost (Bill.items bill).
Proof.
  intros H.
  destruct (bills_handler_created _ _ _ _ _ H eq_refl)
    as (customerId & customer & subtotal & markup & discount & grandTotal
        & partialPayment & lines & Hc & Hsub & Hm & Hd & Hg & Hp & _ & _ & Hpop & _ & _
        & Hr & _ & _ & Hbills & _).
  injection Hr as -> -> _. apply populate_inr in Hpop.
  split; [done|]. split; [rewrite Hbills; apply lookup_insert_eq|].
  simpl. repeat split; try done.
  - intros Hle. apply Qle_bool_iff in Hle. by rewrite Hle.
  - intros Hlt. destruct (Qle_bool grandTotal partialPayment) eqn:E; [|done].
    apply Qle_bool_iff in E. exfalso. apply (Qlt_not_le _ _ Hlt E).
  - by eapply sum_totalCost_spec.
Qed.

Lemma X2_stored_bill_witness :
  bills (post_api_bills Shop.st0 Shop.bill_paid).1 !! 4%nat = Some Shop2.stored_paid
  ∧ Bill.status Shop2.stored_paid = "completed"
  ∧ Forall2 (resolves Shop.st0) (BillReq.items Shop.bill_paid)
            (Bill.items Shop2.stored_paid).
Proof.
  destruct (X2_stored_bill Shop.st0 Shop.bill_paid
              (post_api_bills Shop.st0 Shop.bill_paid).1 4%nat
              Shop2.stored_paid Shop2.created_paid)
    as (_ & Hb & _ & _ & _ & _ & _ & _ & _ & Hcomp & _ & Hres & _).
  { vm_compute. reflexivity. }
  split; [exact Hb|]. split; [|exact Hres].
  apply Hcomp. simpl. lra.
Defined.

(** ** Bill creation: what the handler does not look at *)

Lemma same_but_total_line_fields l l' :
  same_but_total l l' → line_fields l = line_fields l'.
Proof.
  intros (Hi & Hq & Hu & Hc & (t & Ht & Hnt) & (t' & Ht' & Hnt')).
  unfold line_fields. rewrite Hi, Hq, Hu, Hc, Ht, Ht'.
  destruct (BillReq.itemId l'), (BillReq.quantity l'), (BillReq.unitPrice l'),
    (BillReq.customPrice l'); try done.
  assert (truthy (Some t) = true) as -> by (apply truthy_nonzero; by exists t).
  assert (truthy (Some t') = true) as -> by (apply truthy_nonzero; by exists t').
  done.
Qed.

Lemma same_but_total_check_fields index ls ls' :
  Forall2 same_but_total ls ls' → check_fields index ls = check_fields index ls'.
Proof.
  intros HF. revert index. induction HF as [|l l' ls ls' Hl _ IH]; intros index; [done|].
  simpl. by rewrite (same_but_total_line_fields _ _ Hl), IH.
Qed.

(** X3. The [total] a client submits on a line only has to be truthy: its
    value is recomputed as quantity * customPrice and never compared with
    anything.  Two requests that differ only in the values of their line
    totals get the same response and leave the same store. *)
Theorem X3_line_total_ignored st b b' :
  Forall2 same_but_total (BillReq.items b) (BillReq.items b') →
  BillReq.customerId b = BillReq.customerId b' →
  BillReq.subtotal b = BillReq.subtotal b' →
  BillReq.markup b = BillReq.markup b' →
  BillReq.discount b = BillReq.discount b' →
  BillReq.grandTotal b = BillReq.grandTotal b' →
  BillReq.paymentType b = BillReq.paymentType b' →
  BillReq.partialPayment b = BillReq.partialPayment b' →
  post_api_bills st b = post_api_bills st b'.
Proof.
  intros HF Hc Hs Hm Hd Hg Ht Hp.
  assert (populate st (BillReq.items b) = populate st (BillReq.items b')) as Hpop.
  { unfold populate. by rewrite (same_but_total_check_fields 0 _ _ HF). }
  assert (bool_decide (BillReq.items b = []) = bool_decide (BillReq.items b' = []))
    as Hnil.
  { destruct HF; [done|]. by rewrite !bool_decide_eq_false_2. }
  unfold post_api_bills, bills_handler, bill_field_errors.
  by rewrite Hc, Hs, Hm, Hd, Hg, Ht, Hp, Hpop, Hnil.
Qed.

Lemma X3_line_total_ignored_witness :
  post_api_bills Shop.st0 Shop.bill_paid
  = post_api_bills Shop.st0 Shop2.bill_paid_total_999.
Proof.
  apply X3_line_total_ignored; try reflexivity.
  constructor; [|constructor].
  repeat split; try reflexivity.
  - exists (2 * 25). split; [reflexivity|]. vm_compute. discriminate.
  - exists 999. split; [reflexivity|]. vm_compute. discriminate.
Defined.

(** ** Bill creation: what a bill leaves alone *)

Lemma decrement_stock_other ls st i :
  Forall (λ l, BillLine.itemId l ≠ i) ls →
  items (decrement_stock ls st) !! i = items st !! i.
Proof.
  unfold decrement_stock. intros HF. revert st.
  induction HF as [|l ls Hl _ IH]; intros st; simpl; [done|].
  rewrite IH, inc_stock_lookup. by rewrite decide_False.
Qed.

Lemma resolved_item_ids st ls lines :
  Forall2 (resolves st) ls lines →
  BillReq.itemId <$> ls = Some <$> (BillLine.itemId <$> lines).
Proof.
  induction 1 as [|l pl ls lines (Hi & _) _ IH]; [done|].
  rewrite !fmap_cons. by rewrite Hi, IH.
Qed.

(** X4. A bill request touches only the customer it names and the items
    its lines name: every other customer document and every other item
    document is the same afterwards, and no Refund record is written. *)
Theorem X4_bill_frame st b c i :
  BillReq.customerId b ≠ Some c →
  Some i ∉ BillReq.itemId <$> BillReq.items b →
  customers (post_api_bills st b).1 !! c = customers st !! c
  ∧ items (post_api_bills st b).1 !! i = items st !! i
  ∧ refunds (post_api_bills st b).1 = refunds st.
Proof.
  intros Hc Hi.
  destruct (decide (status (post_api_bills st b).2 = 201%nat)) as [Hs|Hs].
  - destruct (bills_handler_created _ _ _ _ _ (surjective_pairing _) Hs)
      as (customerId & customer & subtotal & markup & discount & grandTotal
          & partialPayment & lines & Hcid & _ & _ & _ & _ & _ & _ & _ & Hpop & _ & _
          & _ & Hitems & Hcs & _ & _ & _ & Hr & _).
    fold post_api_bills in *. rewrite Hcs, Hitems, Hr.
    split; [|split; [|done]].
    + apply lookup_insert_ne. congruence.
    + apply decrement_stock_other. apply populate_inr in Hpop.
      rewrite (resolved_item_ids _ _ _ Hpop) in Hi.
      apply Forall_forall. intros l Hl Heq. apply Hi. rewrite <- Heq.
      by apply list_elem_of_fmap_2, list_elem_of_fmap_2.
  - assert ((post_api_bills st b).1 = st) as ->
      by (eapply bills_handler_rejected; [apply surjective_pairing|done]).
    done.
Qed.

Lemma X4_bill_frame_witness :
  customers (post_api_bills Shop.st0 Shop.bill_paid).1 !! Shop.bob
  = customers Shop.st0 !! Shop.bob
  ∧ items (post_api_bills Shop.st0 Shop.bill_paid).1 !! Shop.missing
    = items Shop.st0 !! Shop.missing
  ∧ refunds (post_api_bills Shop.st0 Shop.bill_paid).1 = refunds Shop.st0.
Proof.
  apply X4_bill_frame.
  - discriminate.
  - simpl. intros [Heq|H]%elem_of_cons; [discriminate Heq|]. by apply elem_of_nil in H.
Defined.

(** ** Bill creation: the payment made with the bill *)

(** X5. A 201 stores a Payment exactly when partialPayment > 0: the
    record carries the partial payment as amount, the bill's paymentType
    as method and the billed customer, and the 'payment' ledger entry
    written last refers to it by [_id].  With partialPayment = 0 no
    Payment is stored. *)
Theorem X5_bill_payment_record st b st' r :
  post_api_bills st b = (st', r) →
  status r = 201%nat →
  ∃ customerId partialPayment,
    BillReq.customerId b = Some customerId
    ∧ BillReq.partialPayment b = Some partialPayment
    ∧ ((0 < partialPayment
        ∧ ∃ payment transaction,
            payments st' = payments st ++ [payment]
            ∧ Payment.customerId payment = customerId
            ∧ Payment.amount payment = partialPayment
            ∧ Payment.paymentMethod payment = BillReq.paymentType b
            ∧ last (transactions st') = Some transaction
            ∧ Transaction.paymentId transaction = Some (Payment._id payment))
       ∨ (partialPayment == 0 ∧ payments st' = payments st)).
Proof.
  intros H Hs.
  destruct (bills_handler_created _ _ _ _ _ H Hs)
    as (customerId & customer & subtotal & markup & discount & grandTotal
        & partialPayment & lines & Hc & _ & _ & _ & _ & Hp & He & _ & _ & _ & _
        & _ & _ & _ & _ & Hts & Hps & _).
  exists customerId, partialPayment. split; [done|]. split; [done|].
  rewrite Hts, Hps. destruct (Qlt_bool 0 partialPayment) eqn:E.
  - left. apply Qlt_bool_true in E. split; [done|].
    eexists _, _. split; [done|]. do 3 (split; [done|]).
    split; [rewrite last_app; reflexivity | reflexivity].
  - right. apply Qlt_bool_false in E. rewrite app_nil_r. split; [|done].
    apply bill_field_errors_nil in He as (_ & _ & _ & _ & _ & _ & _ & Hnn).
    rewrite Hp in Hnn. simpl in Hnn. apply Qle_bool_iff in Hnn. lra.
Qed.

Lemma X5_bill_payment_record_witness :
  ∃ customerId partialPayment,
    BillReq.customerId Shop.bill_paid = Some customerId
    ∧ BillReq.partialPayment Shop.bill_paid = Some partialPayment
    ∧ ((0 < partialPayment
        ∧ ∃ payment transaction,
            payments (post_api_bills Shop.st0 Shop.bill_paid).1
            = payments Shop.st0 ++ [payment]
            ∧ Payment.customerId payment = customerId
            ∧ Payment.amount payment = partialPayment
            ∧ Payment.paymentMethod payment = BillReq.paymentType Shop.bill_paid
            ∧ last (transactions (post_api_bills Shop.st0 Shop.bill_paid).1)
              = Some transaction
            ∧ Transaction.paymentId transaction = Some (Payment._id payment))
       ∨ (partialPayment == 0
          ∧ payments (post_api_bills Shop.st0 Shop.bill_paid).1 = payments Shop.st0)).
Proof.
  apply (X5_bill_payment_record Shop.st0 Shop.bill_paid
           (post_api_bills Shop.st0 Shop.bill_paid).1
           (post_api_bills Shop.st0 Shop.bill_paid).2).
  - apply surjective_pairing.
  - vm_compute. reflexivity.
Defined.

(** ** Payments *)

(** What a payment answered with 201 has written. *)
Lemma post_api_payments_created st p st' resp :
  post_api_payments st p = (st', resp) →
  status resp = 201%nat →
  ∃ customerId amount customer payment transaction,
    PaymentReq.customerId p = Some customerId
    ∧ PaymentReq.amount p = Some amount
    ∧ customers st !! customerId = Some customer
    ∧ customers st'
      = <[customerId := Customer.set_balance (Customer.balance customer - amount) customer]>
          (customers st)
    ∧ payments st' = payments st ++ [payment]
    ∧ payment
      = Payment.mk (nextId st) customerId amount (PaymentReq.paymentMethod p)
                   (if bool_decide (PaymentReq.description p = "") then None
                    else Some (DescText (PaymentReq.description p)))
    ∧ transactions st' = transactions st ++ [transaction]
    ∧ Transaction.customerId transaction = customerId
    ∧ Transaction.amount transaction = - amount
    ∧ Transaction.type transaction = TPayment
    ∧ Transaction.billId transaction = None
    ∧ Transaction.paymentId transaction = Some (nextId st)
    ∧ bills st' = bills st
    ∧ items st' = items st
    ∧ refunds st' = refunds st.
Proof.
  unfold post_api_payments, json_error. intros H Hs.
  repeat (case_match; simplify_eq/=; try done).
  all: eexists _, _, _, _, _; by repeat split.
Qed.

(** X8. A payment answered with 201 lowers the customer's balance by
    exactly the amount, whatever the balance was; it appends one Payment
    under the next [_id] and one 'payment' ledger entry of the opposite
    amount that refers to it.  No bill, item or Refund record changes; in
    particular a pending bill stays pending however much is paid. *)
Theorem X8_payment_effect st p st' resp :
  post_api_payments st p = (st', resp) →
  status resp = 201%nat →
  ∃ customerId amount customer payment transaction,
    PaymentReq.customerId p = Some customerId
    ∧ PaymentReq.amount p = Some amount
    ∧ customers st !! customerId = Some customer
    ∧ customers st'
      = <[customerId := Customer.set_balance (Customer.balance customer - amount) customer]>
          (customers st)
    ∧ payments st' = payments st ++ [payment]
    ∧ payment
      = Payment.mk (nextId st) customerId amount (PaymentReq.paymentMethod p)
                   (if bool_decide (PaymentReq.description p = "") then None
                    else Some (DescText (PaymentReq.description p)))
    ∧ transactions st' = transactions st ++ [transaction]
    ∧ Transaction.customerId transaction = customerId
    ∧ Transaction.amount transaction = - amount
    ∧ Transaction.type transaction = TPayment
    ∧ Transaction.billId transaction = None
    ∧ Transaction.paymentId transaction = Some (nextId st)
    ∧ bills st' = bills st
    ∧ items st' = items st
    ∧ refunds st' = refunds st.
Proof. apply post_api_payments_created. Qed.

Lemma X8_payment_effect_witness :
  ∃ customer,
    customers (post_api_payments Shop.st1 Pay.alice_20).1 !! Shop.alice = Some customer
    ∧ Customer.balance customer == 35
    ∧ bills (post_api_payments Shop.st1 Pay.alice_20).1 = bills Shop.st1.
Proof.
  destruct (X8_payment_effect Shop.st1 Pay.alice_20
              (post_api_payments Shop.st1 Pay.alice_20).1
              (post_api_payments Shop.st1 Pay.alice_20).2 (surjective_pairing _))
    as (customerId & amount & customer & payment & transaction & Hc & Ha & Hcust & Hcs
        & _ & _ & _ & _ & _ & _ & _ & _ & Hb & _).
  { vm_compute. reflexivity. }
  injection Hc as <-. injection Ha as <-.
  eexists. split; [rewrite Hcs; apply lookup_insert_eq|].
  split; [|exact Hb].
  assert (customer = Customer.mk "Alice" "555-0100" "ACC-1" 55) as ->.
  { vm_compute in Hcust. by injection Hcust as <-. }
  vm_compute. reflexivity.
Defined.

(** ** Accounts *)




(** ** What one request can change *)

Lemma refunds_handler_refunds statusEnum st r :
  refunds (refunds_handler statusEnum st r).1 = refunds st
  ∨ ∃ refund, refunds (refunds_handler statusEnum st r).1 = refunds st ++ [refund].
Proof.
  unfold refunds_handler, json_error.
  repeat (case_match; simplify_eq/=; auto).
  all: match goal with
       | H : refund_items ?b ?l ?s = _ |- _ =>
           pose proof (refund_items_frame b l s) as (_ & _ & _ & _ & Hr & _);
           rewrite H in Hr; simpl in Hr; rewrite Hr
       end.
  all: eauto.
Qed.

Lemma bills_handler_payments statusEnum st b :
  ∃ k, payments (bills_handler statusEnum st b).1 = payments st ++ k
       ∧ Forall (λ p, (nextId st ≤ Payment._id p
                       < nextId (bills_handler statusEnum st b).1)%nat) k.
Proof.
  unfold bills_handler, json_error.
  repeat (case_match; simplify_eq/=).
  all: try (exists []; split; [by rewrite app_nil_r|constructor]).
  all: destruct st; simpl in *.
  all: match goal with
       | H : context [decrement_stock ?l ?s] |- _ =>
           pose proof (decrement_stock_frame l s) as (_ & _ & Hp & _ & _ & Hn);
           simpl in Hp, Hn
       | |- context [decrement_stock ?l ?s] =>
           pose proof (decrement_stock_frame l s) as (_ & _ & Hp & _ & _ & Hn);
           simpl in Hp, Hn
       end.
  all: rewrite ?Hp, ?Hn; simpl.
  all: first [ by (exists []; split; [by rewrite app_nil_r|constructor])
             | eexists [_]; split; [done|]; repeat constructor; simpl; lia ].
Qed.

Lemma post_api_payments_rejected st p :
  status (post_api_payments st p).2 ≠ 201%nat → (post_api_payments st p).1 = st.
Proof.
  unfold post_api_payments, json_error. intros Hs.
  repeat (case_match; simplify_eq/=; try done).
Qed.

Lemma post_api_payments_counter st p :
  status (post_api_payments st p).2 = 201%nat →
  nextId (post_api_payments st p).1 = S (nextId st).
Proof.
  unfold post_api_payments, json_error. intros Hs.
  repeat (case_match; simplify_eq/=; try done).
Qed.

(** The shape of the change one request makes to the counter, to the
    three logs, to the bills and to the customers. *)
Lemma handle_shape st rq :
  let st' := (handle st rq).1 in
  (nextId st ≤ nextId st')%nat
  ∧ (∃ k, transactions st' = transactions st ++ k)
  ∧ (∃ k, payments st' = payments st ++ k
          ∧ Forall (λ p, (nextId st ≤ Payment._id p < nextId st')%nat) k)
  ∧ (∃ k, refunds st' = refunds st ++ k)
  ∧ (bills st' = bills st
     ∨ ∃ bill, bills st' = <[nextId st := bill]> (bills st)
               ∧ (nextId st < nextId st')%nat)
  ∧ (customers st' = customers st
     ∨ (∃ c x b, customers st !! c = Some x
                 ∧ customers st' = <[c := Customer.set_balance b x]> (customers st))
     ∨ (∃ x, customers st' = <[nextId st := x]> (customers st)
             ∧ (nextId st < nextId st')%nat)).
Proof.
  destruct rq as [c|b|p|r]; simpl.
  - unfold post_api_customers, json_error.
    repeat (case_match; simplify_eq/=).
    all: repeat split; try lia; try (by exists []; rewrite ?app_nil_r); auto.
    all: try (exists []; split; [by rewrite app_nil_r|constructor]).
    right. right. eexists. split; [done|lia].
  - split; [|split; [|split; [exact (bills_handler_payments _ st b)|]]].
    all: destruct (decide (status (post_api_bills st b).2 = 201%nat)) as [Hs|Hs];
      [ destruct (bills_handler_created _ _ _ _ _ (surjective_pairing _) Hs)
          as (customerId & customer & subtotal & markup & discount & grandTotal
              & partialPayment & lines & _ & _ & _ & _ & _ & _ & _ & Hc & _ & _ & _
              & _ & _ & Hcs & Hbs & Hts & Hps & Hrs & Hn);
        fold post_api_bills in *
      | assert ((post_api_bills st b).1 = st) as ->
          by (eapply bills_handler_rejected; [apply surjective_pairing|done]) ].
    + lia.
    + lia.
    + by eexists.
    + exists []. by rewrite app_nil_r.
    + rewrite Hrs, Hbs, Hcs. split; [exists []; by rewrite app_nil_r|].
      split; [right; eexists; by split|]. right. left. by eexists _, _, _.
    + split; [exists []; by rewrite app_nil_r|]. by auto.
  - destruct (decide (status (post_api_payments st p).2 = 201%nat)) as [Hs|Hs].
    + destruct (post_api_payments_created _ _ _ _ (surjective_pairing _) Hs)
        as (customerId & amount & customer & payment & transaction & _ & _ & Hc & Hcs
            & Hps & Hpay & Hts & _ & _ & _ & _ & _ & Hbs & _ & Hrs).
      pose proof (post_api_payments_counter st p Hs) as Hn.
      rewrite Hcs, Hps, Hts, Hbs, Hrs, Hn.
      split; [lia|]. split; [by eexists|]. split.
      { exists [payment]. split; [done|].
        constructor; [rewrite Hpay; simpl; lia|constructor]. }
      split; [exists []; by rewrite app_nil_r|]. split; [by left|].
      right. left. by eexists _, _, _.
    + rewrite (post_api_payments_rejected st p Hs).
      repeat split; try lia; try (by exists []; rewrite ?app_nil_r); auto.
  - destruct (post_api_refunds_frame st r) as (Hcs & Hbs & Hts & Hps & Hn).
    rewrite Hcs, Hbs, Hts, Hps, Hn.
    split; [lia|]. split; [exists []; by rewrite app_nil_r|].
    split; [exists []; split; [by rewrite app_nil_r|constructor]|].
    split; [|by auto].
    destruct (refunds_handler_refunds billSchema_status_enum st r) as [Hr|[refund Hr]];
      fold post_api_refunds in Hr; rewrite Hr;
      [exists []; by rewrite app_nil_r|by eexists].
Qed.

(** ** Along a sequence of requests *)

Lemma run_cons st rq rqs : run st (rq :: rqs) = run (handle st rq).1 rqs.
Proof. reflexivity. Qed.

Lemma handle_customers_fresh st rq :
  customers_fresh st → customers_fresh (handle st rq).1.
Proof.
  intros Hf c.
  destruct (handle_shape st rq) as (Hn & _ & _ & _ & _ & [->|[(k & x & b & Hk & ->)|(x & -> & Hlt)]]).
  - intros Hc. specialize (Hf _ Hc). lia.
  - intros [<-|[_ Hc]]%lookup_insert_is_Some.
    + assert (is_Some (customers st !! k)) as Hc by (by rewrite Hk).
      specialize (Hf _ Hc). lia.
    + specialize (Hf _ Hc). lia.
  - intros [<-|[_ Hc]]%lookup_insert_is_Some; [lia|]. specialize (Hf _ Hc). lia.
Qed.

Lemma handle_bills_fresh st rq :
  bills_fresh st → bills_fresh (handle st rq).1.
Proof.
  intros Hf k.
  destruct (handle_shape st rq) as (Hn & _ & _ & _ & [->|(bill & -> & Hlt)] & _).
  - intros Hk. specialize (Hf _ Hk). lia.
  - intros [<-|[_ Hk]]%lookup_insert_is_Some; [lia|]. specialize (Hf _ Hk). lia.
Qed.

(** X10. Bills, payments and refunds change nothing of a customer but the
    balance, and no request removes or replaces a customer: along any
    sequence of account creations, bill creations, payments and refunds a
    stored customer stays stored with the same name, phone and
    accountNumber. *)
Theorem X10_customer_identity_kept st rqs c x :
  customers_fresh st →
  customers st !! c = Some x →
  ∃ y, customers (run st rqs) !! c = Some y
       ∧ Customer.name y = Customer.name x
       ∧ Customer.phone y = Customer.phone x
       ∧ Customer.accountNumber y = Customer.accountNumber x.
Proof.
  revert st x. induction rqs as [|rq rqs IH]; intros st x Hf Hc.
  - by exists x.
  - rewrite run_cons.
    assert (∃ y, customers (handle st rq).1 !! c = Some y
                 ∧ Customer.name y = Customer.name x
                 ∧ Customer.phone y = Customer.phone x
                 ∧ Customer.accountNumber y = Customer.accountNumber x)
      as (y & Hy & Hn & Hp & Ha).
    { destruct (handle_shape st rq)
        as (_ & _ & _ & _ & _ & [->|[(k & z & b & Hk & ->)|(z & -> & Hlt)]]).
      - by exists x.
      - destruct (decide (k = c)) as [->|Hne].
        + rewrite lookup_insert_eq. simplify_eq. by eexists.
        + rewrite lookup_insert_ne by done. by exists x.
      - assert (is_Some (customers st !! c)) as Hlt' by (by rewrite Hc).
        specialize (Hf _ Hlt'). rewrite lookup_insert_ne by lia. by exists x. }
    destruct (IH _ y (handle_customers_fresh st rq Hf) Hy) as (z & Hz & ? & ? & ?).
    exists z. split; [done|]. split; [congruence|]. split; congruence.
Qed.

Lemma X10_customer_identity_kept_witness :
  ∃ y, customers (run Shop.st0 Opening.history) !! Shop.alice = Some y
       ∧ Customer.name y = "Alice"
       ∧ Customer.phone y = "555-0100"
       ∧ Customer.accountNumber y = "ACC-1".
Proof.
  apply (X10_customer_identity_kept Shop.st0 Opening.history Shop.alice
           (Customer.mk "Alice" "555-0100" "ACC-1" 0)).
  - intros c [x Hx]. unfold Shop.st0 in Hx. simpl in Hx.
    apply lookup_insert_Some in Hx as [[<- _]|[_ Hx]];
      [unfold Shop.alice, Shop.st0; simpl; lia|].
    apply lookup_singleton_Some in Hx as [<- _]. unfold Shop.bob, Shop.st0. simpl. lia.
  - reflexivity.
Defined.

(** X11. The ledger, the payments and the refunds are append-only: after
    any sequence of account creations, bill creations, payments and
    refunds each of the three collections starts with what it held before,
    in the same order. *)
Theorem X11_logs_append_only st rqs :
  transactions st `prefix_of` transactions (run st rqs)
  ∧ payments st `prefix_of` payments (run st rqs)
  ∧ refunds st `prefix_of` refunds (run st rqs).
Proof.
  revert st. induction rqs as [|rq rqs IH]; intros st; [done|].
  rewrite run_cons. destruct (IH (handle st rq).1) as (Ht & Hp & Hr).
  destruct (handle_shape st rq) as (_ & (kt & Hkt) & (kp & Hkp & _) & (kr & Hkr) & _).
  repeat split.
  - etrans; [|exact Ht]. rewrite Hkt. by apply prefix_app_r.
  - etrans; [|exact Hp]. rewrite Hkp. by apply prefix_app_r.
  - etrans; [|exact Hr]. rewrite Hkr. by apply prefix_app_r.
Qed.

(** X12. A stored bill is immutable: along any sequence of account
    creations, bill creations, payments and refunds a bill keeps every
    field, its status included, and is never removed.  (New bills get a
    fresh [_id]; the one write to an existing bill, in the refund handler,
    is refused by the schema.) *)
Theorem X12_bill_immutable st rqs k bill :
  bills_fresh st →
  bills st !! k = Some bill →
  bills (run st rqs) !! k = Some bill.
Proof.
  revert st. induction rqs as [|rq rqs IH]; intros st Hf Hk; [done|].
  rewrite run_cons. apply IH; [by apply handle_bills_fresh|].
  destruct (handle_shape st rq) as (_ & _ & _ & _ & [->|(b & -> & Hlt)] & _); [done|].
  assert (is_Some (bills st !! k)) as Hk' by (by rewrite Hk).
  specialize (Hf _ Hk'). rewrite lookup_insert_ne by lia. done.
Qed.

Lemma X12_bill_immutable_witness :
  bills (run Shop.st1 Shop3.busy) !! Shop.bill1 = Some Shop3.stored_credit.
Proof.
  assert (bills Shop.st1 = {[ Shop.bill1 := Shop3.stored_credit ]}) as Hb
    by (vm_compute; reflexivity).
  apply X12_bill_immutable.
  - intros k [x Hx]. rewrite Hb in Hx.
    apply lookup_singleton_Some in Hx as [<- _]. vm_compute. lia.
  - rewrite Hb. apply lookup_singleton_eq.
Defined.

(** ** The ledger refers to stored documents *)

Lemma entry_refers_mono st st' t :
  entry_refers st t →
  (∀ c, is_Some (customers st !! c) → is_Some (customers st' !! c)) →
  (∀ k b, bills st !! k = Some b → bills st' !! k = Some b) →
  (∀ p, p ∈ payments st → p ∈ payments st') →
  entry_refers st' t.
Proof.
  intros [Hc Ht] Hcs Hbs Hps. split; [by apply Hcs|].
  destruct (Transaction.type t); [| |done].
  - destruct Ht as (k & b & ? & ? & ? & ?). exists k, b. repeat split; try done. by apply Hbs.
  - destruct Ht as (p & ? & ? & ? & ?). exists p. repeat split; try done. by apply Hps.
Qed.

Lemma handle_ledger_refers st rq :
  bills_fresh st → ledger_refers st → ledger_refers (handle st rq).1.
Proof.
  intros Hf Hrefs.
  assert (∀ t, entry_refers st t → entry_refers (handle st rq).1 t) as Hmono.
  { intros t Ht. apply (entry_refers_mono st _ t Ht).
    - intros c Hc.
      destruct (handle_shape st rq)
        as (_ & _ & _ & _ & _ & [->|[(k & z & b & Hk & ->)|(z & -> & Hlt)]]); [done| |].
      + apply lookup_insert_is_Some. destruct (decide (k = c)); auto.
      + apply lookup_insert_is_Some. destruct (decide (nextId st = c)); auto.
    - intros k b Hk.
      destruct (handle_shape st rq) as (_ & _ & _ & _ & [->|(b' & -> & Hlt)] & _); [done|].
      assert (is_Some (bills st !! k)) as Hk' by (by rewrite Hk).
      specialize (Hf _ Hk'). rewrite lookup_insert_ne by lia. done.
    - intros p Hp.
      destruct (handle_shape st rq) as (_ & _ & (kp & -> & _) & _).
      apply elem_of_app. by left. }
  unfold ledger_refers.
  assert (Forall (entry_refers (handle st rq).1) (transactions st)) as Hold.
  { eapply Forall_impl; [exact Hrefs|]. exact Hmono. }
  destruct rq as [c|b|p|r]; simpl in *.
  - destruct (post_api_customers_outcome st c _ _ (surjective_pairing _))
      as [[-> _]|(customer & _ & _ & _ & -> & _)]; done.
  - destruct (decide (status (post_api_bills st b).2 = 201%nat)) as [Hs|Hs].
    + destruct (bills_handler_created _ _ _ _ _ (surjective_pairing _) Hs)
        as (customerId & customer & subtotal & markup & discount & grandTotal
            & partialPayment & lines & _ & _ & _ & _ & _ & _ & _ & Hc & _ & _ & _
            & _ & _ & Hcs & Hbs & Hts & Hps & _).
      fold post_api_bills in *. rewrite Hts. apply Forall_app. split; [done|].
      assert (is_Some (customers (post_api_bills st b).1 !! customerId)) as Hcust.
      { rewrite Hcs, lookup_insert_eq. by eexists. }
      destruct (Qlt_bool 0 partialPayment); repeat constructor; simpl; try done.
      * eexists _, _. split; [done|]. rewrite Hbs, lookup_insert_eq. by repeat split.
      * eexists. rewrite Hps. split; [apply elem_of_app; right; apply list_elem_of_here|].
        by repeat split.
      * eexists _, _. split; [done|]. rewrite Hbs, lookup_insert_eq. by repeat split.
    + assert ((post_api_bills st b).1 = st) as ->
        by (eapply bills_handler_rejected; [apply surjective_pairing|done]).
      done.
  - destruct (decide (status (post_api_payments st p).2 = 201%nat)) as [Hs|Hs].
    + destruct (post_api_payments_created _ _ _ _ (surjective_pairing _) Hs)
        as (customerId & amount & customer & payment & transaction & _ & _ & Hc & Hcs
            & Hps & Hpay & Hts & Ht1 & Ht2 & Ht3 & _ & Ht4 & _).
      rewrite Hts. apply Forall_app. split; [done|].
      repeat constructor.
      * rewrite Ht1, Hcs, lookup_insert_eq. by eexists.
      * rewrite Ht3. exists payment.
        rewrite Hps. split; [apply elem_of_app; right; apply list_elem_of_here|].
        rewrite Ht1, Ht2, Ht4, Hpay. by repeat split.
    + by rewrite (post_api_payments_rejected st p Hs).
  - destruct (post_api_refunds_frame st r) as (_ & _ & -> & _). done.
Qed.

Lemma run_ledger_refers st rqs :
  bills_fresh st → ledger_refers st →
  bills_fresh (run st rqs) ∧ ledger_refers (run st rqs).
Proof.
  revert st. induction rqs as [|rq rqs IH]; intros st Hf Hr; [done|].
  rewrite run_cons. apply IH; [by apply handle_bills_fresh|by apply handle_ledger_refers].
Qed.

(** ** Deleting a customer or an item *)

Lemma ledger_sum_filter_other id c ts :
  c ≠ id →
  ledger_sum c (filter (λ t, Transaction.customerId t ≠ id) ts) == ledger_sum c ts.
Proof.
  intros Hne. induction ts as [|t ts IH]; [reflexivity|].
  rewrite filter_cons. destruct (decide (Transaction.customerId t ≠ id)) as [Hk|Hk]; simpl.
  - case_bool_decide; by rewrite IH.
  - rewrite bool_decide_eq_false_2; [exact IH|].
    intros Heq. apply Hk. congruence.
Qed.

Lemma ledger_sum_filter_self id ts :
  ledger_sum id (filter (λ t, Transaction.customerId t ≠ id) ts) == 0.
Proof.
  apply ledger_sum_other. apply Forall_forall. intros t Ht.
  by apply list_elem_of_filter in Ht as [Ht _].
Qed.

(** X17. Deleting a customer that exists removes the customer together
    with every bill, payment and ledger entry that names it, and nothing
    else: the other customers, their bills, payments and ledger entries
    (in the same order), and every item are as before.  Refund records
    are not part of the cascade: those of the deleted customer stay
    stored.  Deleting a customer that does not exist is answered with 404
    and changes nothing. *)
Theorem X17_customer_deleted st id :
  let st' := (delete_api_customers st id).1 in
  let resp := (delete_api_customers st id).2 in
  (customers st !! id = None → st' = st ∧ code resp = 404%nat)
  ∧ (is_Some (customers st !! id) →
     code resp = 200%nat
     ∧ customers st' = delete id (customers st)
     ∧ (∀ k b, bills st' !! k = Some b ↔ bills st !! k = Some b ∧ Bill.customerId b ≠ id)
     ∧ (∀ p, p ∈ payments st' ↔ p ∈ payments st ∧ Payment.customerId p ≠ id)
     ∧ (∀ t, t ∈ transactions st'
             ↔ t ∈ transactions st ∧ Transaction.customerId t ≠ id)
     ∧ (∀ c, c ≠ id →
             ledger_sum c (transactions st') == ledger_sum c (transactions st))
     ∧ refunds st' = refunds st
     ∧ items st' = items st
     ∧ nextId st' = nextId st).
Proof.
  unfold delete_api_customers. split.
  - intros ->. done.
  - intros [x ->]. simpl.
    split; [done|]. split; [done|].
    split; [intros k b; apply map_lookup_filter_Some|].
    split; [intros p; rewrite list_elem_of_filter; tauto|].
    split; [intros t; rewrite list_elem_of_filter; tauto|].
    split; [intros c Hc; by apply ledger_sum_filter_other|].
    done.
Qed.

Lemma X17_customer_deleted_witness :
  customers (delete_api_customers Shop.st1 Shop.alice).1
  = delete Shop.alice (customers Shop.st1)
  ∧ transactions (delete_api_customers Shop.st1 Shop.alice).1 = []
  ∧ (delete_api_customers Shop.st1 Shop.missing).1 = Shop.st1.
Proof.
  destruct (X17_customer_deleted Shop.st1 Shop.alice) as [_ Hdel].
  destruct Hdel as (_ & Hc & _); [eexists; vm_compute; reflexivity|].
  destruct (X17_customer_deleted Shop.st1 Shop.missing) as [Hmiss _].
  destruct Hmiss as [Hsame _]; [vm_compute; reflexivity|].
  split; [exact Hc|]. split; [vm_compute; reflexivity|exact Hsame].
Defined.

Lemma apply_op_ledger_refers st op :
  bills_fresh st → ledger_refers st →
  bills_fresh (apply_op st op) ∧ ledger_refers (apply_op st op).
Proof.
  intros Hf Hr. destruct op as [rq|id|id]; simpl.
  - split; [by apply handle_bills_fresh|by apply handle_ledger_refers].
  - unfold delete_api_customers.
    destruct (customers st !! id) as [x|] eqn:Hx; [|done]. simpl. split.
    + intros k [b [Hb _]%map_lookup_filter_Some]. apply Hf. by eexists.
    + unfold ledger_refers. simpl. apply Forall_forall.
      intros t [Hid Ht]%list_elem_of_filter.
      pose proof (proj1 (Forall_forall _ _) Hr t Ht) as [Hc Hty].
      split; simpl.
      * rewrite lookup_delete_ne by done. exact Hc.
      * destruct (Transaction.type t); [| |done].
        -- destruct Hty as (k & b & ? & ? & Hbc & ?). exists k, b.
           repeat split; try done. apply map_lookup_filter_Some. split; [done|].
           simpl. congruence.
        -- destruct Hty as (p & ? & ? & Hpc & ?). exists p.
           repeat split; try done. apply list_elem_of_filter. split; [congruence|done].
  - unfold delete_api_items. by destruct (items st !! id).
Qed.

(** X13. Each ledger entry refers to stored documents, and keeps doing so
    along any sequence of account creations, bill creations, payments,
    refunds and deletions: its customer exists; a 'bill' entry names a
    stored bill of that customer whose grandTotal is the entry's amount; a
    'payment' entry names a stored Payment of that customer of the
    opposite amount; and no entry of type 'refund' is ever written. *)
Theorem X13_ledger_refers_to_documents st ops :
  bills_fresh st →
  ledger_refers st →
  ledger_refers (run_ops st ops).
Proof.
  revert st. induction ops as [|op ops IH]; intros st Hf Hr; [done|].
  simpl. destruct (apply_op_ledger_refers st op Hf Hr) as [Hf' Hr']. by apply IH.
Qed.

Lemma X13_ledger_refers_to_documents_witness :
  ledger_refers (run_ops Shop.st0 Churn.ops).
Proof.
  apply X13_ledger_refers_to_documents.
  - intros k [b Hb]. unfold Shop.st0 in Hb. simpl in Hb. by rewrite lookup_empty in Hb.
  - constructor.
Defined.

(** ** Refunds: what a request can and cannot do *)

Lemma refunds_handler_codes statusEnum st r :
  let resp := (refunds_handler statusEnum st r).2 in
  (status resp = 201 ∨ status resp = 400 ∨ status resp = 404)%nat.
Proof.
  unfold refunds_handler, json_error.
  repeat (case_match; simplify_eq/=; auto).
Qed.

(** X14. No refund request is ever answered with 201: the answer is 400
    or 404, and no customer, bill, ledger entry or payment is written.
    The balance decrement and the 'refund' ledger entry of lines 426-436
    are never reached. *)
Theorem X14_refund_never_applied st r :
  let st' := (post_api_refunds st r).1 in
  let resp := (post_api_refunds st r).2 in
  (status resp = 400 ∨ status resp = 404)%nat
  ∧ customers st' = customers st
  ∧ bills st' = bills st
  ∧ transactions st' = transactions st
  ∧ payments st' = payments st.
Proof.
  simpl. destruct (post_api_refunds_frame st r) as (Hc & Hb & Ht & Hp & _).
  split; [|done].
  pose proof (post_api_refunds_never_accepted st r) as Hs.
  destruct (refunds_handler_codes billSchema_status_enum st r) as [H|H]; [done|exact H].
Qed.

Lemma refund_items_stock bill its st i it :
  Forall (λ item, ¬ refused_line bill item) its →
  items st !! i = Some it →
  ∃ it', items (refund_items bill its st).1 !! i = Some it'
         ∧ Item.stock it' == Item.stock it + refund_quantity i its.
Proof.
  intros HF. revert st it. induction HF as [|item its Hr _ IH]; intros st it Hit; simpl.
  - exists it. split; [done|]. lra.
  - unfold refused_line in Hr.
    destruct (List.find _ (Bill.items bill)) as [bi|]; [|done].
    destruct (Qlt_bool (BillLine.quantity bi) (RefundLine.quantity item)) eqn:E.
    { apply Qlt_bool_true in E. done. }
    destruct (decide (RefundLine.itemId item = i)) as [Heq|Hne].
    + edestruct (IH (inc_stock (RefundLine.itemId item) (RefundLine.quantity item) st))
        as (it' & H1 & H2).
      { rewrite inc_stock_lookup, decide_True, Hit by done. reflexivity. }
      exists it'. rewrite bool_decide_eq_true_2 by done. split; [done|].
      rewrite H2. simpl. lra.
    + edestruct (IH (inc_stock (RefundLine.itemId item) (RefundLine.quantity item) st))
        as (it' & H1 & H2).
      { rewrite inc_stock_lookup, decide_False by done. exact Hit. }
      exists it'. rewrite bool_decide_eq_false_2 by done. by split.
Qed.

(** A request that passes every check gets as far as [bill.save()]: the
    stock increments and the Refund record are written, the answer is
    400. *)
Lemma post_api_refunds_passes st r :
  refund_passes st r →
  ∃ billId bill refund,
    RefundReq.billId r = Some billId
    ∧ bills st !! billId = Some bill
    ∧ Forall (λ item, ¬ refused_line bill item) (RefundReq.items r)
    ∧ (post_api_refunds st r).2 = json_error 400 (NotValidEnumValue "status" "refunded")
    ∧ items (post_api_refunds st r).1
      = items (refund_items bill (RefundReq.items r) st).1
    ∧ refunds (post_api_refunds st r).1 = refunds st ++ [refund].
Proof.
  intros (billId & customerId & amount & bill & Hbid & Hcid & Ham & Hpos & Hitems
          & Hreason & Hb & Hs & [customer Hc] & HF).
  exists billId, bill. eexists. split; [done|]. split; [done|]. split; [done|].
  unfold post_api_refunds, refunds_handler, Bill_validate.
  rewrite Hbid, Hcid, Ham. simpl.
  assert (Qeq_bool amount 0 = false) as ->.
  { destruct (Qeq_bool amount 0) eqn:E; [|done]. apply Qeq_bool_iff in E. lra. }
  assert (Qle_bool amount 0 = false) as ->.
  { destruct (Qle_bool amount 0) eqn:E; [|done]. apply Qle_bool_iff in E. lra. }
  rewrite !bool_decide_eq_false_2 by done. simpl. rewrite Hb.
  rewrite bool_decide_eq_false_2 by done. rewrite Hc.
  pose proof (refund_items_accepts bill _ st HF) as Hnone.
  pose proof (refund_items_frame bill (RefundReq.items r) st) as (_ & _ & _ & _ & Hr & _).
  destruct (refund_items bill (RefundReq.items r) st) as [st1 e].
  simpl in Hnone, Hr. subst e. simpl. rewrite Hr. by repeat split.
Qed.

Lemma refund_passes_again st r :
  refund_passes st r → refund_passes (post_api_refunds st r).1 r.
Proof.
  intros (billId & customerId & amount & bill & ? & ? & ? & ? & ? & ? & Hb & ? & Hc & ?).
  destruct (post_api_refunds_frame st r) as (Hcs & Hbs & _).
  exists billId, customerId, amount, bill. rewrite Hcs, Hbs. by repeat split.
Qed.

(** X15. A refund request that passes every check of the handler can be
    repeated without limit: each time it is answered with 400, yet each
    time it raises the stock of every item by the quantity its lines ask
    back and stores one more Refund record.  After [n] requests an item
    has [n] times that quantity more in stock. *)
Theorem X15_refund_repeats st r n i it :
  refund_passes st r →
  items st !! i = Some it →
  ∃ it',
    items (refund_again n st r) !! i = Some it'
    ∧ Item.stock it'
      == Item.stock it + inject_Z (Z.of_nat n) * refund_quantity i (RefundReq.items r)
    ∧ length (refunds (refund_again n st r)) = (length (refunds st) + n)%nat
    ∧ (post_api_refunds (refund_again n st r) r).2
      = json_error 400 (NotValidEnumValue "status" "refunded").
Proof.
  revert st it. induction n as [|n IH]; intros st it Hp Hit.
  - exists it. simpl. split; [done|].
    split; [change (inject_Z (Z.of_nat 0)) with 0; ring|]. split; [lia|].
    by destruct (post_api_refunds_passes st r Hp) as (? & ? & ? & _ & _ & _ & ? & _).
  - destruct (post_api_refunds_passes st r Hp)
      as (billId & bill & refund & _ & _ & HF & _ & Hitems & Hrefunds).
    destruct (refund_items_stock bill _ st i it HF Hit) as (it1 & Hit1 & Hs1).
    rewrite <- Hitems in Hit1.
    destruct (IH _ it1 (refund_passes_again st r Hp) Hit1) as (it' & Hit' & Hs' & Hlen & Hresp).
    exists it'. simpl. split; [done|]. split; [|split; [|done]].
    + rewrite Hs', Hs1, Nat2Z.inj_succ, <- Z.add_1_r, inject_Z_plus. simpl. ring.
    + rewrite Hlen, Hrefunds, length_app. simpl. lia.
Qed.

Lemma X15_refund_repeats_witness :
  ∃ it',
    items (refund_again 3 Shop.st1 Refunds.whole) !! Shop.A = Some it'
    ∧ Item.stock it'
      == 3 + inject_Z (Z.of_nat 3) * refund_quantity Shop.A (RefundReq.items Refunds.whole)
    ∧ length (refunds (refund_again 3 Shop.st1 Refunds.whole))
      = (length (refunds Shop.st1) + 3)%nat
    ∧ (post_api_refunds (refund_again 3 Shop.st1 Refunds.whole) Refunds.whole).2
      = json_error 400 (NotValidEnumValue "status" "refunded").
Proof.
  apply (X15_refund_repeats Shop.st1 Refunds.whole 3 Shop.A
           (Item.mk "A" (Some 10) 20 3)).
  - exists Shop.bill1, Shop.alice, 55, Shop3.stored_credit.
    repeat split; try done.
    simpl. constructor; [|constructor]. unfold refused_line. simpl. lra.
  - vm_compute. reflexivity.
Defined.

(** X16. A refund request that is turned away before the item loop has
    accepted a line changes nothing at all: bad data, a missing or
    already refunded bill, a missing customer, or a first line that is
    refused all leave the store as it was. *)
Theorem X16_refund_rejected_early st r :
  refund_stops_early st r →
  (post_api_refunds st r).1 = st
  ∧ (status (post_api_refunds st r).2 = 400
     ∨ status (post_api_refunds st r).2 = 404)%nat.
Proof.
  intros H. split.
  - unfold post_api_refunds, refunds_handler, json_error.
    destruct H as [id Hid Hn|id bill Hid Hb Hs|c Hc Hn|id bill item rest Hid Hb Hi Hr|Hbad].
    + rewrite Hid, Hn. repeat (case_match; simplify_eq/=; try done).
    + rewrite Hid, Hb, Hs. repeat (case_match; simplify_eq/=; try done).
    + rewrite Hc, Hn. repeat (case_match; simplify_eq/=; try done).
    + rewrite Hid, Hb, Hi. simpl. unfold refused_line in Hr.
      destruct (List.find _ (Bill.items bill)) as [bi|].
      * apply Qlt_bool_true in Hr. rewrite Hr.
        repeat (case_match; simplify_eq/=; try done).
      * repeat (case_match; simplify_eq/=; try done).
    + destruct (RefundReq.billId r) as [billId|]; [|done].
      destruct (RefundReq.customerId r) as [customerId|]; [|done].
      destruct (RefundReq.amount r) as [amount|]; [|done].
      assert (negb (truthy (Some amount)) || Qle_bool amount 0
              || bool_decide (RefundReq.items r = [])
              || bool_decide (RefundReq.reason r = "") = true) as ->; [|done].
      destruct Hbad as [?|[?|[?|[Hb|[Hb|(a & Ha & Hle)]]]]]; try done.
      * rewrite (bool_decide_eq_true_2 _ Hb). by rewrite orb_true_r.
      * rewrite (bool_decide_eq_true_2 _ Hb). by rewrite orb_true_r.
      * injection Ha as <-. apply Qle_bool_iff in Hle. rewrite Hle.
        by rewrite orb_true_r.
  - pose proof (post_api_refunds_never_accepted st r) as Hs.
    destruct (refunds_handler_codes billSchema_status_enum st r) as [H'|H']; [done|exact H'].
Qed.

Lemma X16_refund_rejected_early_witness :
  (post_api_refunds Shop.st1 Refunds2.no_bill).1 = Shop.st1
  ∧ (status (post_api_refunds Shop.st1 Refunds2.no_bill).2 = 400
     ∨ status (post_api_refunds Shop.st1 Refunds2.no_bill).2 = 404)%nat.
Proof.
  apply X16_refund_rejected_early.
  apply (stops_no_bill _ _ Shop.missing); [reflexivity|vm_compute; reflexivity].
Defined.

(** ** Deleting an item *)

Lemma refund_items_none bill its st i :
  items st !! i = None → items (refund_items bill its st).1 !! i = None.
Proof.
  revert st. induction its as [|item its IH]; intros st Hn; simpl; [done|].
  repeat (case_match; simpl; try done).
  apply IH. rewrite inc_stock_lookup. case_decide; [by rewrite Hn|done].
Qed.

Lemma refunds_handler_items statusEnum st r :
  items (refunds_handler statusEnum st r).1 = items st
  ∨ ∃ bill, items (refunds_handler statusEnum st r).1
            = items (refund_items bill (RefundReq.items r) st).1.
Proof.
  unfold refunds_handler, json_error.
  repeat (case_match; simplify_eq/=; auto).
  all: right; match goal with
       | H : refund_items ?b ?l ?s = _ |- _ => exists b; by rewrite H
       end.
Qed.

(** X19. Deleting an item that exists removes the item document only:
    bills whose lines name it stay stored, and so do all customers,
    payments, ledger entries and refunds.  Afterwards every bill request
    with a line for the item is rejected without any write, and no refund
    request brings the item back, since the stock increment does not
    create a missing document.  Deleting an item that does not exist is
    answered with 404 and changes nothing. *)
Theorem X19_item_deleted st id :
  let st' := (delete_api_items st id).1 in
  let resp := (delete_api_items st id).2 in
  (items st !! id = None → st' = st ∧ code resp = 404%nat)
  ∧ (is_Some (items st !! id) →
     code resp = 200%nat
     ∧ items st' = delete id (items st)
     ∧ customers st' = customers st
     ∧ bills st' = bills st
     ∧ payments st' = payments st
     ∧ transactions st' = transactions st
     ∧ refunds st' = refunds st)
  ∧ (∀ b l, l ∈ BillReq.items b → BillReq.itemId l = Some id →
            status (post_api_bills st' b).2 ≠ 201%nat
            ∧ (post_api_bills st' b).1 = st')
  ∧ (∀ r, items (post_api_refunds st' r).1 !! id = None).
Proof.
  simpl.
  assert (items (delete_api_items st id).1 !! id = None) as Hgone.
  { unfold delete_api_items. destruct (items st !! id) eqn:E; simpl; [|done].
    apply lookup_delete_eq. }
  split; [|split; [|split]].
  - unfold delete_api_items. by intros ->.
  - unfold delete_api_items. by intros [x ->].
  - intros b l Hl Hi.
    assert (status (post_api_bills (delete_api_items st id).1 b).2 ≠ 201%nat) as Hs.
    { eapply fails_validation_rejected; [|apply surjective_pairing].
      by eapply fails_item. }
    split; [done|].
    eapply bills_handler_rejected; [apply surjective_pairing|done].
  - intros r.
    destruct (refunds_handler_items billSchema_status_enum (delete_api_items st id).1 r)
      as [Hr|[bill Hr]]; fold post_api_refunds in Hr; rewrite Hr; [done|].
    by apply refund_items_none.
Qed.

Lemma X19_item_deleted_witness :
  items (delete_api_items Shop.st1 Shop.A).1 = delete Shop.A (items Shop.st1)
  ∧ bills (delete_api_items Shop.st1 Shop.A).1 = bills Shop.st1
  ∧ status (post_api_bills (delete_api_items Shop.st1 Shop.A).1 Shop.bill_paid).2
    ≠ 201%nat
  ∧ items (post_api_refunds (delete_api_items Shop.st1 Shop.A).1 Refunds.whole).1
      !! Shop.A = None.
Proof.
  destruct (X19_item_deleted Shop.st1 Shop.A) as (_ & Hdel & Hbill & Hrefund).
  destruct Hdel as (_ & Hi & _ & Hb & _); [eexists; vm_compute; reflexivity|].
  split; [exact Hi|]. split; [exact Hb|]. split; [|apply Hrefund].
  apply (Hbill Shop.bill_paid (Shop.line Shop.A 2 25)); [apply list_elem_of_here|reflexivity].
Defined.

(** ** Bill creation: what an accepted bill takes from the stock *)

(** X20. An accepted bill takes from every stored item the total quantity
    requested by the lines that name it, the sum when several lines name
    the same item.  When no two lines name the same item, each line's
    item loses exactly the line's quantity and its stock stays at or above
    zero. *)
Theorem X20_bill_stock st b st' r i it :
  post_api_bills st b = (st', r) →
  status r = 201%nat →
  items st !! i = Some it →
  ∃ it',
    items st' !! i = Some it'
    ∧ Item.name it' = Item.name it
    ∧ Item.costPrice it' = Item.costPrice it
    ∧ Item.stock it' == Item.stock it - requested_quantity i (BillReq.items b)
    ∧ (NoDup (BillReq.itemId <$> BillReq.items b) →
       ∀ l q, l ∈ BillReq.items b → BillReq.itemId l = Some i →
              BillReq.quantity l = Some q →
              Item.stock it' == Item.stock it - q ∧ 0 <= Item.stock it').
Proof.
  intros H Hs Hit.
  destruct (bills_handler_created _ _ _ _ _ H Hs)
    as (customerId & customer & subtotal & markup & discount & grandTotal
        & partialPayment & lines & _ & _ & _ & _ & _ & _ & _ & _ & Hpop & _ & _
        & _ & Hitems & _).
  destruct (decrement_stock_lookup lines st i it Hit) as (it' & H1 & H2 & H3 & H4).
  pose proof (populate_inr _ _ _ Hpop) as HF.
  exists it'. rewrite Hitems. split; [done|]. split; [done|]. split; [done|].
  assert (Item.stock it' == Item.stock it - requested_quantity i (BillReq.items b)) as Hst
    by by rewrite H2, (ordered_requested st (BillReq.items b)).
  split; [exact Hst|].
  intros Hnd l q Hl Hi Hq.
  rewrite (requested_quantity_unique i q l) in Hst by done.
  destruct (resolves_elem_of _ _ _ _ HF Hl)
    as (pl & Hi' & Hq' & _ & _ & _ & db & Hdb & Hle & _).
  simplify_eq. split; lra.
Qed.

Lemma X20_bill_stock_witness :
  ∃ it',
    items (post_api_bills Shop.st0 Duplicate.bill).1 !! Shop.A = Some it'
    ∧ Item.name it' = "A"
    ∧ Item.costPrice it' = Some 10
    ∧ Item.stock it' == 5 - requested_quantity Shop.A (BillReq.items Duplicate.bill)
    ∧ (NoDup (BillReq.itemId <$> BillReq.items Duplicate.bill) →
       ∀ l q, l ∈ BillReq.items Duplicate.bill → BillReq.itemId l = Some Shop.A →
              BillReq.quantity l = Some q →
              Item.stock it' == 5 - q ∧ 0 <= Item.stock it').
Proof.
  apply (X20_bill_stock Shop.st0 Duplicate.bill
           (post_api_bills Shop.st0 Duplicate.bill).1
           (post_api_bills Shop.st0 Duplicate.bill).2 Shop.A
           (Item.mk "A" (Some 10) 20 5)).
  - apply surjective_pairing.
  - vm_compute. reflexivity.
  - vm_compute. reflexivity.
Defined.

(** ** One ledger entry per bill *)

Lemma bill_entries_app k ts us :
  bill_entries k (ts ++ us) = bill_entries k ts ++ bill_entries k us.
Proof. apply filter_app. Qed.

Lemma bill_entries_refers st k t :
  ledger_refers st → t ∈ bill_entries k (transactions st) →
  ∃ bill, bills st !! k = Some bill
          ∧ Bill.customerId bill = Transaction.customerId t
          ∧ Bill.grandTotal bill = Transaction.amount t.
Proof.
  intros Hr [[Hty Hid] Ht]%list_elem_of_filter.
  pose proof (proj1 (Forall_forall _ _) Hr t Ht) as [_ Href].
  rewrite Hty in Href. destruct Href as (k' & bill & Hk' & Hb & ? & ?).
  rewrite Hid in Hk'. simplify_eq. by exists bill.
Qed.

Lemma bill_entries_absent st k :
  ledger_refers st → bills st !! k = None → bill_entries k (transactions st) = [].
Proof.
  intros Hr Hn. destruct (bill_entries k (transactions st)) as [|t ts] eqn:E; [done|].
  destruct (bill_entries_refers st k t Hr) as (bill & Hb & _); [|congruence].
  rewrite E. apply list_elem_of_here.
Qed.

Lemma bill_entries_none k ts :
  Forall (λ t, Transaction.type t ≠ TBill ∨ Transaction.billId t ≠ Some k) ts →
  bill_entries k ts = [].
Proof.
  induction 1 as [|t ts Ht _ IH]; [done|].
  unfold bill_entries in *. rewrite filter_cons_False; [done|].
  intros [? ?]. destruct Ht; done.
Qed.

Lemma handle_at_most_one_entry_per_bill st rq :
  bills_fresh st → ledger_refers st → at_most_one_entry_per_bill st →
  at_most_one_entry_per_bill (handle st rq).1.
Proof.
  intros Hf Hr Hone. destruct rq as [c|b|p|r]; simpl.
  - destruct (post_api_customers_outcome st c _ _ (surjective_pairing _))
      as [[-> _]|(customer & _ & _ & _ & Hts & _)]; [done|].
    intros k. rewrite Hts. apply Hone.
  - destruct (decide (status (post_api_bills st b).2 = 201%nat)) as [Hs|Hs].
    + destruct (bills_handler_created _ _ _ _ _ (surjective_pairing _) Hs)
        as (customerId & customer & subtotal & markup & discount & grandTotal
            & partialPayment & lines & _ & _ & _ & _ & _ & _ & _ & _ & _ & _ & _
            & _ & _ & _ & Hbs & Hts & _).
      fold post_api_bills in *. intros k. rewrite Hts, bill_entries_app.
      rewrite length_app.
      assert (bills st !! nextId st = None) as Hfresh.
      { destruct (bills st !! nextId st) eqn:E; [|done].
        assert (is_Some (bills st !! nextId st)) as Hl by (by rewrite E).
        specialize (Hf _ Hl). lia. }
      destruct (decide (nextId st = k)) as [<-|Hne].
      * rewrite (bill_entries_absent st _ Hr Hfresh). simpl.
        unfold bill_entries.
        destruct (Qlt_bool 0 partialPayment);
          rewrite filter_cons_True by done;
          [rewrite filter_cons_False by (by intros [? ?])|]; done.
      * rewrite (bill_entries_none k (if Qlt_bool 0 partialPayment then _ else _));
          [rewrite Nat.add_comm; apply (Hone k)|].
        destruct (Qlt_bool 0 partialPayment).
        -- constructor; [simpl; right; congruence|].
           constructor; [simpl; right; congruence|constructor].
        -- constructor; [simpl; right; congruence|constructor].
    + assert ((post_api_bills st b).1 = st) as ->
        by (eapply bills_handler_rejected; [apply surjective_pairing|done]).
      done.
  - destruct (decide (status (post_api_payments st p).2 = 201%nat)) as [Hs|Hs].
    + destruct (post_api_payments_created _ _ _ _ (surjective_pairing _) Hs)
        as (customerId & amount & customer & payment & transaction & _ & _ & _ & _
            & _ & _ & Hts & _ & _ & Hty & _ & _ & Hbs & _).
      intros k. rewrite Hts, bill_entries_app, length_app.
      rewrite (bill_entries_none k [transaction]); [rewrite Nat.add_comm; apply (Hone k)|].
      constructor; [left; by rewrite Hty|constructor].
    + by rewrite (post_api_payments_rejected st p Hs).
  - destruct (post_api_refunds_frame st r) as (_ & Hbs & Hts & _).
    intros k. rewrite Hts. apply Hone.
Qed.

Lemma bill_entries_filter_length k (P : Transaction.t → Prop) `{!∀ t, Decision (P t)} ts :
  (length (bill_entries k (filter P ts)) ≤ length (bill_entries k ts))%nat.
Proof.
  unfold bill_entries. induction ts as [|t ts IH]; [done|].
  destruct (decide (P t)) as [Hp|Hp].
  - rewrite (filter_cons_True P) by done.
    destruct (decide (Transaction.type t = TBill ∧ Transaction.billId t = Some k))
      as [Hq|Hq].
    + rewrite !(filter_cons_True (λ t, Transaction.type t = TBill ∧ _)) by done.
      simpl. lia.
    + by rewrite !(filter_cons_False (λ t, Transaction.type t = TBill ∧ _)) by done.
  - rewrite (filter_cons_False P) by done.
    destruct (decide (Transaction.type t = TBill ∧ Transaction.billId t = Some k))
      as [Hq|Hq].
    + rewrite (filter_cons_True (λ t, Transaction.type t = TBill ∧ _)) by done.
      simpl. lia.
    + by rewrite (filter_cons_False (λ t, Transaction.type t = TBill ∧ _)) by done.
Qed.

Lemma apply_op_at_most_one_entry_per_bill st op :
  bills_fresh st → ledger_refers st → at_most_one_entry_per_bill st →
  at_most_one_entry_per_bill (apply_op st op).
Proof.
  intros Hf Hr Hone. destruct op as [rq|id|id]; simpl.
  - by apply handle_at_most_one_entry_per_bill.
  - unfold delete_api_customers. destruct (customers st !! id); [|done]. simpl.
    intros k. simpl. etrans; [apply bill_entries_filter_length|apply Hone].
  - unfold delete_api_items. by destruct (items st !! id).
Qed.

(** X21. No bill is entered twice: along any sequence of account
    creations, bill creations, payments, refunds and deletions the ledger
    holds at most one entry of type 'bill' for any bill [_id], and such an
    entry names a stored bill and carries that bill's customer and
    grandTotal. *)
Theorem X21_at_most_one_ledger_entry_per_bill st ops k :
  bills_fresh st →
  ledger_refers st →
  at_most_one_entry_per_bill st →
  (length (bill_entries k (transactions (run_ops st ops))) ≤ 1)%nat
  ∧ ∀ t, t ∈ bill_entries k (transactions (run_ops st ops)) →
         ∃ bill, bills (run_ops st ops) !! k = Some bill
                 ∧ Transaction.customerId t = Bill.customerId bill
                 ∧ Transaction.amount t = Bill.grandTotal bill.
Proof.
  revert st. induction ops as [|op ops IH]; intros st Hf Hr Hone.
  - simpl. split; [apply Hone|]. intros t Ht.
    destruct (bill_entries_refers st k t Hr Ht) as (bill & ? & ? & ?). by exists bill.
  - simpl. destruct (apply_op_ledger_refers st op Hf Hr) as [Hf' Hr'].
    apply IH; try done. by apply apply_op_at_most_one_entry_per_bill.
Qed.

Lemma X21_at_most_one_ledger_entry_per_bill_witness :
  (length (bill_entries 5 (transactions (run_ops Shop.st0 Churn.ops))) ≤ 1)%nat
  ∧ ∀ t, t ∈ bill_entries 5 (transactions (run_ops Shop.st0 Churn.ops)) →
         ∃ bill, bills (run_ops Shop.st0 Churn.ops) !! 5%nat = Some bill
                 ∧ Transaction.customerId t = Bill.customerId bill
                 ∧ Transaction.amount t = Bill.grandTotal bill.
Proof.
  apply (X21_at_most_one_ledger_entry_per_bill Shop.st0 Churn.ops 5%nat).
  - intros k [b Hb]. unfold Shop.st0 in Hb. simpl in Hb. by rewrite lookup_empty in Hb.
  - constructor.
  - intros k. simpl. lia.
Defined.

(** ** Refunds: the terminal status *)


Lemma handle_with_server st rq : handle_with billSchema_status_enum st rq = handle st rq.
Proof. by destruct rq. Qed.




(** ** Replaying the ledger *)

Lemma replay_Qeq c b b' st rqs :
  b == b' → replay c b st rqs == replay c b' st rqs.
Proof.
  revert b b' st. induction rqs as [|rq rqs IH]; intros b b' st Hb; [done|].
  simpl. apply IH. lra.
Qed.

Lemma entries_written_app st rq new :
  transactions (handle st rq).1 = transactions st ++ new →
  entries_written st rq = new.
Proof. unfold entries_written. intros ->. by rewrite drop_app_length. Qed.

(** One request moves the balance of a stored customer by the amounts of
    the ledger entries it writes for that customer. *)
Lemma handle_balance_step st rq c x :
  customers_fresh st →
  customers st !! c = Some x →
  ∃ x', customers (handle st rq).1 !! c = Some x'
        ∧ Customer.balance x'
          == Customer.balance x + ledger_sum c (entries_written st rq).
Proof.
  intros Hf Hc.
  assert (c < nextId st)%nat as Hlt by (apply Hf; by eexists).
  assert (∀ st', handle st rq = (st', (handle st rq).2) →
                 customers st' = customers st → transactions st' = transactions st →
                 ∃ x', customers (handle st rq).1 !! c = Some x'
                       ∧ Customer.balance x'
                         == Customer.balance x + ledger_sum c (entries_written st rq))
    as Hsame.
  { intros st' E Hcs Hts. exists x.
    rewrite (entries_written_app st rq []); [|by rewrite E, app_nil_r].
    rewrite E. simpl. rewrite Hcs. split; [done|lra]. }
  destruct rq as [cr|b|p|r].
  - destruct (post_api_customers st cr) as [st' resp] eqn:E.
    destruct (post_api_customers_outcome _ _ _ _ E)
      as [[-> _]|(y & _ & _ & Hcs & Hts & _)].
    + apply (Hsame st); [|done..]. simpl. by rewrite E.
    + exists x. rewrite (entries_written_app st (NewCustomer cr) []);
        [|simpl; by rewrite E, app_nil_r].
      simpl. rewrite E. simpl. rewrite Hcs, lookup_insert_ne by lia.
      split; [done|lra].
  - destruct (post_api_bills st b) as [st' resp] eqn:E.
    destruct (decide (status resp = 201%nat)) as [Hs|Hs].
    + destruct (bills_handler_created _ _ _ _ _ E Hs)
        as (customerId & customer & ? & ? & ? & grandTotal & partialPayment & ?
            & _ & _ & _ & _ & _ & Hpp & Hfields & Hcust & _ & _ & _
            & _ & _ & Hcs & _ & Hts & _).
      apply bill_field_errors_nil in Hfields as (_ & _ & _ & _ & _ & _ & _ & Hnn).
      rewrite Hpp in Hnn. simpl in Hnn. apply Qle_bool_iff in Hnn.
      rewrite (entries_written_app st (NewBill b) _ ltac:(simpl; rewrite E; exact Hts)).
      simpl. rewrite E. simpl. rewrite Hcs.
      destruct (decide (customerId = c)) as [->|Hne].
      * rewrite lookup_insert_eq. eexists. split; [done|]. simplify_eq. simpl.
        destruct (Qlt_bool 0 partialPayment) eqn:Hp; simpl;
          rewrite ?bool_decide_eq_true_2 by done; [lra|].
        apply Qlt_bool_false in Hp. lra.
      * rewrite lookup_insert_ne by done. exists x. split; [done|].
        destruct (Qlt_bool 0 partialPayment); simpl;
          rewrite ?bool_decide_eq_false_2 by done; lra.
    + apply (Hsame st); [|done..]. simpl. rewrite E.
      by rewrite (bills_handler_rejected _ _ _ _ _ E Hs).
  - destruct (post_api_payments st p) as [st' resp] eqn:E.
    destruct (decide (status resp = 201%nat)) as [Hs|Hs].
    + destruct (post_api_payments_created _ _ _ _ E Hs)
        as (customerId & amount & customer & ? & t & _ & _ & Hcust & Hcs & _ & _ & Hts
            & Htc & Hta & _).
      rewrite (entries_written_app st (NewPayment p) _ ltac:(simpl; rewrite E; exact Hts)).
      simpl. rewrite E. simpl. rewrite Hcs, Htc, Hta.
      destruct (decide (customerId = c)) as [->|Hne].
      * rewrite lookup_insert_eq, bool_decide_eq_true_2 by done.
        eexists. split; [done|]. simplify_eq. simpl. lra.
      * rewrite lookup_insert_ne, bool_decide_eq_false_2 by done.
        exists x. split; [done|lra].
    + pose proof (post_api_payments_rejected st p) as Hrej. rewrite E in Hrej.
      simpl in Hrej. specialize (Hrej Hs). subst st'.
      apply (Hsame st); [|done..]. simpl. by rewrite E.
  - destruct (post_api_refunds_frame st r) as (Hcs & _ & Hts & _).
    apply (Hsame (post_api_refunds st r).1); [|done..].
    simpl. apply surjective_pairing.
Qed.

Lemma run_balance_replay rqs st c x :
  customers_fresh st →
  customers st !! c = Some x →
  ∃ x', customers (run st rqs) !! c = Some x'
        ∧ Customer.balance x' == replay c (Customer.balance x) st rqs.
Proof.
  revert st x. induction rqs as [|rq rqs IH]; intros st x Hf Hc.
  - exists x. split; [done|reflexivity].
  - destruct (handle_balance_step st rq c x Hf Hc) as (x1 & Hc1 & Hb1).
    destruct (IH _ x1 (handle_customers_fresh st rq Hf) Hc1) as (x' & Hc' & Hb').
    exists x'. split; [done|]. simpl. rewrite Hb'. by apply replay_Qeq.
Qed.

(** The ledger after a sequence of requests is the ledger before it
    followed by what the requests wrote. *)
Lemma run_written rqs st :
  transactions (run st rqs) = transactions st ++ written st rqs.
Proof.
  revert st. induction rqs as [|rq rqs IH]; intros st; simpl.
  - by rewrite app_nil_r.
  - destruct (handle_shape st rq) as (_ & [k Hk] & _).
    change (run (handle st rq).1 rqs) with (fold_left (λ s rq, (handle s rq).1) rqs (handle st rq).1).
    fold (run (handle st rq).1 rqs).
    rewrite IH, (entries_written_app st rq k Hk), Hk. by rewrite app_assoc.
Qed.

(** C5 (as amended). An account is opened by POST /api/customers with the
    balance of the request body (0 when it has none) and no ledger entry.
    From then on, along every sequence of account creations, bill
    creations, payments and refunds, the customer's stored balance is that
    opening balance with the amounts of the customer's ledger entries
    added to it request by request: each request adds the sum of the
    entries it writes for the customer (+grandTotal and -partialPayment
    for a bill, -amount for a payment, nothing otherwise), which is the
    handler's own update of the balance.  The entries replayed are all
    the entries the ledger has gained since the account was opened. *)
Theorem C5_balance_replays_the_ledger st creq st1 c customer rqs :
  customers_fresh st →
  post_api_customers st creq = (st1, mkResponse 201 (CustomerCreated c customer)) →
  transactions st1 = transactions st
  ∧ Customer.balance customer = default 0 (CustomerReq.balance creq)
  ∧ transactions (run st1 rqs) = transactions st1 ++ written st1 rqs
  ∧ ∃ customer',
      customers (run st1 rqs) !! c = Some customer'
      ∧ Customer.balance customer'
        == replay c (default 0 (CustomerReq.balance creq)) st1 rqs.
Proof.
  intros Hf H.
  destruct (post_api_customers_outcome _ _ _ _ H)
    as [[_ (? & ? & [=])]|(y & [= -> ->] & Hb & Hcs & Hts & Hn)].
  split; [done|]. split; [done|]. split; [apply run_written|].
  assert (customers_fresh st1) as Hf1.
  { intros k. rewrite Hcs, Hn, lookup_insert_is_Some. intros [<-|[_ Hk]]; [lia|].
    specialize (Hf _ Hk). lia. }
  assert (customers st1 !! nextId st = Some y) as Hc.
  { rewrite Hcs. apply lookup_insert_eq. }
  destruct (run_balance_replay rqs st1 _ _ Hf1 Hc) as (x' & Hx' & Hbal).
  exists x'. split; [done|]. by rewrite <- Hb.
Qed.

Lemma C5_balance_replays_the_ledger_witness :
  let st1 := (post_api_customers Shop.st0 Opening.carol).1 in
  let rqs := [NewBill Opening.bill; NewPayment Opening.payment] in
  transactions st1 = transactions Shop.st0
  ∧ 100 = default 0 (CustomerReq.balance Opening.carol)
  ∧ transactions (run st1 rqs) = transactions st1 ++ written st1 rqs
  ∧ ∃ customer',
      customers (run st1 rqs) !! Opening.carol_id = Some customer'
      ∧ Customer.balance customer'
        == replay Opening.carol_id (default 0 (CustomerReq.balance Opening.carol)) st1 rqs.
Proof.
  apply (C5_balance_replays_the_ledger Shop.st0 Opening.carol
           (post_api_customers Shop.st0 Opening.carol).1 Opening.carol_id
           (Customer.mk "Carol" "555-0102" "ACC-3" 100)
           [NewBill Opening.bill; NewPayment Opening.payment]).
  - intros c [x Hx]. unfold Shop.st0 in Hx. simpl in Hx.
    apply lookup_insert_Some in Hx as [[<- _]|[_ Hx]];
      [unfold Shop.alice, Shop.st0; simpl; lia|].
    apply lookup_singleton_Some in Hx as [<- _]. unfold Shop.bob, Shop.st0. simpl. lia.
  - vm_compute. reflexivity.
Defined.

(** C5 as stated fails at account creation: an account opened with a
    balance of 100 has an empty ledger, so the replay gives 0 while the
    stored balance is 100. *)
Lemma C5_opening_balance_counterexample :
  ¬ ledger_replays_balance (run empty_store [NewCustomer Opening.carol]).
Proof.
  intros H.
  specialize (H 0%nat (Customer.mk "Carol" "555-0102" "ACC-3" 100)).
  assert (ledger_sum 0 (transactions (run empty_store [NewCustomer Opening.carol])) == 100)
    as Hbad by (apply H; vm_compute; reflexivity).
  vm_compute in Hbad. discriminate Hbad.
Qed.

(** * The handlers over IEEE doubles *)

Section IeeeProperties.
Import Stdlib.Floats.Floats.
#[local] Set Warnings "-inexact-float,-clear-no-such-hyp".
Local Open Scope float_scope.

(** C3. The bill validator accepts a request only if the client-supplied
    subtotal is within 0.01 of the sum over lines of quantity *
    customPrice, and the client-supplied grandTotal is within 0.01 of
    (subtotal * (1 + markup/100)) * (1 - discount/100); any larger
    mismatch is rejected.  The two checks of lines 285 and 290 are written
    [Math.abs(...) > 0.01], which is false when the difference is NaN.  A
    bill of one line priced 1e999 with subtotal 1e999 and grandTotal 0.01
    passes both: the recomputed subtotal is Infinity and Infinity -
    Infinity is NaN, the recomputed grand total is NaN, the request is
    answered with 201 and Alice is charged 0.01. *)
Theorem C3_non_finite_totals_accepted :
  let served := Ieee.post_api_bills Ieee.Shop.st0 Ieee.Shop.overflow in
  let lines := Ieee.BillReq.items Ieee.Shop.overflow in
  Ieee.status served.2 = 201%nat
  ∧ Ieee.Bill.subtotal <$> Ieee.bills served.1 !! 4%nat = Some infinity
  ∧ Ieee.Bill.grandTotal <$> Ieee.bills served.1 !! 4%nat = Some 0.01
  ∧ Ieee.Customer.balance <$> Ieee.customers served.1 !! Shop.alice = Some 0.01
  ∧ Ieee.within_tolerance (Ieee.spec_subtotal lines) infinity = false
  ∧ Ieee.within_tolerance (Ieee.spec_grandTotal infinity 10 0) 0.01 = false
  ∧ Ieee.within_tolerance (Ieee.calculatedGrandTotal infinity 10 0) 0.01 = false
  ∧ is_nan (Ieee.calculatedGrandTotal infinity 10 0) = true
  ∧ Ieee.mismatch (Ieee.spec_subtotal lines) infinity = false
  ∧ Ieee.mismatch (Ieee.calculatedGrandTotal infinity 10 0) 0.01 = false.
Proof. vm_compute. done. Qed.

(** ** POST /api/bills over doubles *)

(** X1. A bill request that is not answered with 201 leaves the store as
    it was, with one exception: when every check has passed and the bill
    document has been saved, but the balance to store,
    balance + (grandTotal - partialPayment), is NaN, [customer.save()]
    throws; the answer is 400 and the bill stays stored under its new
    [_id], while the balance, the stock, the ledger and the payments are
    as before. *)
Theorem X1_bill_not_created st b :
  let st' := (Ieee.post_api_bills st b).1 in
  let resp := (Ieee.post_api_bills st b).2 in
  Ieee.status resp ≠ 201%nat →
  st' = st
  ∨ ∃ customerId customer grandTotal partialPayment bill,
      Ieee.BillReq.customerId b = Some (Ieee.Oid customerId)
      ∧ Ieee.customers st !! customerId = Some customer
      ∧ Ieee.BillReq.grandTotal b = Some grandTotal
      ∧ Ieee.BillReq.partialPayment b = Some partialPayment
      ∧ is_nan (Ieee.Customer.balance customer + (grandTotal - partialPayment)) = true
      ∧ resp = Ieee.json_error 400 (Ieee.ValidationFailed "Customer")
      ∧ Ieee.Bill.customerId bill = customerId
      ∧ Ieee.Bill.grandTotal bill = grandTotal
      ∧ Ieee.Bill.partialPayment bill = partialPayment
      ∧ Ieee.bills st' = <[Ieee.nextId st := bill]> (Ieee.bills st)
      ∧ Ieee.nextId st' = S (Ieee.nextId st)
      ∧ Ieee.customers st' = Ieee.customers st
      ∧ Ieee.items st' = Ieee.items st
      ∧ Ieee.transactions st' = Ieee.transactions st
      ∧ Ieee.payments st' = Ieee.payments st.
Proof.
  cbv zeta.
  unfold Ieee.post_api_bills, Ieee.json_error, Ieee.save_bill, Ieee.Customer_valid,
    Ieee.save_payment.
  repeat case_match; simplify_eq/=; intros Hs; try done; try (by left).
  all: right; eexists _, _, _, _, _; repeat split; try done.
  all: by repeat match goal with
              | H : negb _ = true |- _ => apply negb_true_iff in H
              | H : negb _ = false |- _ => apply negb_false_iff in H
              end.
Qed.

Lemma X1_bill_not_created_witness :
  let st' := (Ieee.post_api_bills Ieee.Shop.st0 Ieee.Shop.overflow_paid).1 in
  let resp := (Ieee.post_api_bills Ieee.Shop.st0 Ieee.Shop.overflow_paid).2 in
  (is_Some (Ieee.bills st' !! 4%nat) ∧ Ieee.bills Ieee.Shop.st0 !! 4%nat = None)
  ∧ (st' = Ieee.Shop.st0
     ∨ ∃ customerId customer grandTotal partialPayment bill,
         Ieee.BillReq.customerId Ieee.Shop.overflow_paid = Some (Ieee.Oid customerId)
         ∧ Ieee.customers Ieee.Shop.st0 !! customerId = Some customer
         ∧ Ieee.BillReq.grandTotal Ieee.Shop.overflow_paid = Some grandTotal
         ∧ Ieee.BillReq.partialPayment Ieee.Shop.overflow_paid = Some partialPayment
         ∧ is_nan (Ieee.Customer.balance customer + (grandTotal - partialPayment)) = true
         ∧ resp = Ieee.json_error 400 (Ieee.ValidationFailed "Customer")
         ∧ Ieee.Bill.customerId bill = customerId
         ∧ Ieee.Bill.grandTotal bill = grandTotal
         ∧ Ieee.Bill.partialPayment bill = partialPayment
         ∧ Ieee.bills st' = <[Ieee.nextId Ieee.Shop.st0 := bill]> (Ieee.bills Ieee.Shop.st0)
         ∧ Ieee.nextId st' = S (Ieee.nextId Ieee.Shop.st0)
         ∧ Ieee.customers st' = Ieee.customers Ieee.Shop.st0
         ∧ Ieee.items st' = Ieee.items Ieee.Shop.st0
         ∧ Ieee.transactions st' = Ieee.transactions Ieee.Shop.st0
         ∧ Ieee.payments st' = Ieee.payments Ieee.Shop.st0).
Proof.
  split.
  - split; [|reflexivity]. eexists. vm_compute. reflexivity.
  - apply (X1_bill_not_created Ieee.Shop.st0 Ieee.Shop.overflow_paid).
    vm_compute. discriminate.
Defined.

(** ** Sums of doubles *)

(** The additions the handlers make to a balance cannot be regrouped: a
    balance of 0.1 charged 0.2 and then 0.3 is (0.1 + 0.2) + 0.3, which
    is not 0.1 + (0.2 + 0.3), the opening balance plus the sum of the
    ledger.  It is the opening balance with the entries of each request
    added in turn. *)
Lemma balance_is_not_opening_plus_ledger_sum :
  let st1 := (Ieee.post_api_bills Ieee.Shop.st_tenth (Ieee.Shop.credit 0.2)).1 in
  let st2 := (Ieee.post_api_bills st1 (Ieee.Shop.credit 0.3)).1 in
  Ieee.Transaction.amount <$> Ieee.transactions st2 = [0.2; 0.3]
  ∧ Ieee.Customer.balance <$> Ieee.customers st2 !! Shop.alice = Some ((0.1 + 0.2) + 0.3)
  ∧ ((0.1 + 0.2) + 0.3 =? 0.1 + Ieee.ledger_sum Shop.alice (Ieee.transactions st2)) = false
  ∧ (0.1 + Ieee.ledger_sum Shop.alice (Ieee.transactions st1))
    + Ieee.ledger_sum Shop.alice (drop 1 (Ieee.transactions st2))
    = (0.1 + 0.2) + 0.3.
Proof. vm_compute. done. Qed.

(** The payment of 1e999 by a customer whose balance is Infinity: the
    Payment is stored, the balance and the ledger are not touched, and
    the answer is 400. *)
Lemma payment_stored_without_entry :
  let served := Ieee.post_api_payments Ieee.Shop.st_inf Ieee.Shop.payment_inf in
  served.2 = Ieee.json_error 400 (Ieee.ValidationFailed "Customer")
  ∧ length (Ieee.payments served.1) = 1%nat
  ∧ Ieee.customers served.1 = Ieee.customers Ieee.Shop.st_inf
  ∧ Ieee.transactions served.1 = [].
Proof. vm_compute. done. Qed.

(** ** POST /api/payments over doubles *)


End IeeeProperties.
